(** * init_harness: a shallow embedding of [scripts/init_harness.py]

    The script scaffolds [long_running/<feature_name>/] under a project
    directory and writes three files into it.  The embedding follows the
    script function by function: the three [create_*] helpers and [main]
    are state-passing programs over a world made of a file system, a
    working directory, a clock and the standard output.

    What the script calls in the Python library ([argparse], [pathlib],
    [os], [json], [datetime]) is modelled next to it, each call with the
    CPython behaviour the script relies on.

    Conventions of the model:
    - a Python [str] is a Rocq [string]; text outside ASCII is carried as
      its UTF-8 bytes, which is what ends up in the files;
    - a [pathlib] path is the list of its parts, root first; every path the
      script builds is absolute;
    - the file system is a finite map from canonical absolute paths to
      nodes; there are no symbolic links, every directory may be searched,
      the process owns every node, and new nodes get the modes that the
      usual umask 022 gives them;
    - a raised Python exception ends the computation with the world as it
      is at that point. *)

From Stdlib Require Import ZArith Ascii String.
From stdpp Require Import gmap strings list fin_maps pretty.

Local Open Scope Z_scope.

(** ** Strings *)

Module Str.

Definition dquote : ascii := ascii_of_nat 34.
Definition newline : ascii := ascii_of_nat 10.
Definition slash : ascii := ascii_of_nat 47.

Definition DQ : string := String dquote EmptyString.
Definition NL : string := String newline EmptyString.

(** [sep.join(xs)] *)
Fixpoint join (sep : string) (xs : list string) : string :=
  match xs with
  | [] => EmptyString
  | [x] => x
  | x :: rest => x +:+ sep +:+ join sep rest
  end.

(** A triple-quoted literal, one list element per source line; every
    line of the literal, the last one included, ends in a newline. *)
Fixpoint unlines (xs : list string) : string :=
  match xs with
  | [] => EmptyString
  | x :: rest => x +:+ NL +:+ unlines rest
  end.

(** [s.split(c)]: the pieces of [s] between the occurrences of [c]. *)
Fixpoint split_on (c : ascii) (s : string) : list string :=
  match s with
  | EmptyString => [EmptyString]
  | String a rest =>
      if Ascii.eqb a c then EmptyString :: split_on c rest
      else match split_on c rest with
           | [] => [String a EmptyString]
           | w :: ws => String a w :: ws
           end
  end.

Definition lines (s : string) : list string := split_on newline s.

(** [s.startswith(p)] *)
Fixpoint startswith (p s : string) : bool :=
match p, s with
| EmptyString, _ => true
| String a p', String b s' => Ascii.eqb a b && startswith p' s'
| String _ _, EmptyString => false
end.

Fixpoint drop (n : nat) (s : string) : string :=
  match n, s with
  | O, _ => s
  | S n', String _ rest => drop n' rest
  | S _, EmptyString => EmptyString
  end.

Fixpoint contains_char (c : ascii) (s : string) : bool :=
  match s with
  | EmptyString => false
  | String a rest => Ascii.eqb a c || contains_char c rest
  end.

Definition is_digit (a : ascii) : bool :=
  let n := nat_of_ascii a in (48 <=? n)%nat && (n <=? 57)%nat.

Fixpoint all_chars (p : ascii -> bool) (s : string) : bool :=
  match s with
  | EmptyString => true
  | String a rest => p a && all_chars p rest
  end.

End Str.

(** ** Paths ([pathlib.PurePosixPath])

    A path is kept as its parts.  Parsing a string drops empty parts and
    ["."] parts and keeps [".."]; only [resolve] removes [".."]. *)

Module Path.

Definition is_absolute (s : string) : bool := Str.startswith "/" s.

Definition keep_part (c : string) : bool :=
  negb (String.eqb c "") && negb (String.eqb c ".").

(** the parts of [PurePosixPath(s)], without the root *)
Definition parts (s : string) : list string :=
  List.filter keep_part (Str.split_on Str.slash s).

(** [p / s] for an absolute [p]: an absolute right operand replaces
    the left one *)
Definition joinpath (p : list string) (s : string) : list string :=
  if is_absolute s then parts s else p ++ parts s.

(** [str(p)] for an absolute [p] *)
Definition to_string (p : list string) : string :=
  "/" +:+ Str.join "/" p.

(** [p.name] *)
Definition name (p : list string) : string := List.last p "".

(** lexical removal of [".."], as [os.path.realpath] does it once no
    part is a symbolic link; [stack] is the path so far, last part
    first *)
Fixpoint normalize (stack : list string) (cs : list string) : list string :=
  match cs with
  | [] => List.rev stack
  | c :: rest =>
      if String.eqb c ".." then normalize (List.tl stack) rest
      else normalize (c :: stack) rest
  end.

(** [Path(s).resolve()] in working directory [cwd] *)
Definition resolve (cwd : list string) (s : string) : list string :=
  if is_absolute s then normalize [] (parts s)
  else normalize (List.rev cwd) (parts s).

End Path.

(** ** The file system *)

Module FS.

Inductive node :=
| Dir (mode : Z)
| File (content : string) (mode : Z).

(** the errors of the system calls the script reaches *)
Inductive errno := ENOENT | ENOTDIR | EEXIST | EACCES | EISDIR.

Definition mode_0o755 : Z := 7 * 64 + 5 * 8 + 5.
Definition mode_0o644 : Z := 6 * 64 + 4 * 8 + 4.

(** the owner's write bit, [0o200] *)
Definition writable (mode : Z) : bool := Z.testbit mode 7.

Definition is_dot_dot (c : string) : bool := String.eqb c "..".

(** Path walk of the kernel from directory [cur] along [cs]: every
    directory stepped through has to exist; [".."] steps up and stays
    at the root.  The last place reached is returned unchecked. *)
Fixpoint walk (t : gmap (list string) node) (cur : list string)
    (cs : list string) : errno + list string :=
  match cs with
  | [] => inr cur
  | c :: rest =>
      match t !! cur with
      | Some (Dir _) =>
          walk t (if is_dot_dot c then List.removelast cur else cur ++ [c]) rest
      | Some (File _ _) => inl ENOTDIR
      | None => inl ENOENT
      end
  end.

(** a non-root path as directory part and last part *)
Definition split_last (p : list string) : option (list string * string) :=
  match List.rev p with
  | [] => None
  | n :: rd => Some (List.rev rd, n)
  end.

(** the directory a new entry of path [p] would go into, and its mode *)
Definition lookup_parent (t : gmap (list string) node) (d : list string)
    : errno + (list string * Z) :=
  match walk t [] d with
  | inl e => inl e
  | inr dir =>
      match t !! dir with
      | Some (Dir m) => inr (dir, m)
      | Some (File _ _) => inl ENOTDIR
      | None => inl ENOENT
      end
  end.

(** [os.stat(p)] *)
Definition stat (t : gmap (list string) node) (p : list string)
    : errno + node :=
  match walk t [] p with
  | inl e => inl e
  | inr q =>
      match t !! q with
      | Some n => inr n
      | None => inl ENOENT
      end
  end.

(** [os.mkdir(p)] *)
Definition os_mkdir (t : gmap (list string) node) (p : list string)
    : errno + gmap (list string) node :=
  match split_last p with
  | None => inl EEXIST
  | Some (d, n) =>
      match lookup_parent t d with
      | inl e => inl e
      | inr (dir, m) =>
          if is_dot_dot n then inl EEXIST
          else match t !! (dir ++ [n]) with
               | Some _ => inl EEXIST
               | None =>
                   if writable m then inr (<[dir ++ [n] := Dir mode_0o755]> t)
                   else inl EACCES
               end
      end
  end.

(** [open(p, "w")], [f.write(content)] and the closing of the file *)
Definition write_file (t : gmap (list string) node) (p : list string)
    (content : string) : errno + gmap (list string) node :=
  match split_last p with
  | None => inl EISDIR
  | Some (d, n) =>
      match lookup_parent t d with
      | inl e => inl e
      | inr (dir, m) =>
          if is_dot_dot n then inl EISDIR
          else match t !! (dir ++ [n]) with
               | Some (Dir _) => inl EISDIR
               | Some (File _ fm) =>
                   if writable fm then inr (<[dir ++ [n] := File content fm]> t)
                   else inl EACCES
               | None =>
                   if writable m
                   then inr (<[dir ++ [n] := File content mode_0o644]> t)
                   else inl EACCES
               end
      end
  end.

(** [os.chmod(p, mode)] *)
Definition chmod (t : gmap (list string) node) (p : list string)
    (mode : Z) : errno + gmap (list string) node :=
  match walk t [] p with
  | inl e => inl e
  | inr q =>
      match t !! q with
      | Some (Dir _) => inr (<[q := Dir mode]> t)
      | Some (File c _) => inr (<[q := File c mode]> t)
      | None => inl ENOENT
      end
  end.

(** [Path.exists()]: a failing [stat] is read as absence *)
Definition exists_ (t : gmap (list string) node) (p : list string) : bool :=
  match stat t p with
  | inr _ => true
  | inl _ => false
  end.

(** [Path.is_dir()] *)
Definition is_dir (t : gmap (list string) node) (p : list string) : bool :=
  match stat t p with
  | inr (Dir _) => true
  | _ => false
  end.

(** [Path.mkdir(parents=False, exist_ok=exist_ok)]: a missing parent is
    raised as it is, any other error is dropped when [exist_ok] is set
    and the path is a directory. *)
Definition mkdir (t : gmap (list string) node) (p : list string)
    (exist_ok : bool) : errno * list string + gmap (list string) node :=
  match os_mkdir t p with
  | inr t' => inr t'
  | inl ENOENT => inl (ENOENT, p)
  | inl e => if exist_ok && is_dir t p then inr t else inl (e, p)
  end.

(** [Path.mkdir(parents=True, exist_ok=exist_ok)] on the path whose
    parts, last one first, are [rp]:

      try: os.mkdir(self)
      except FileNotFoundError:
          if self.parent == self: raise
          self.parent.mkdir(parents=True, exist_ok=True)
          self.mkdir(parents=False, exist_ok=exist_ok)
      except OSError:
          if not exist_ok or not self.is_dir(): raise

    The recursion is on the parent, which is the tail of [rp]. *)
Fixpoint mkdir_parents_rev (t : gmap (list string) node) (rp : list string)
    (exist_ok : bool) : errno * list string + gmap (list string) node :=
  match os_mkdir t (List.rev rp) with
  | inr t' => inr t'
  | inl ENOENT =>
      match rp with
      | [] => inl (ENOENT, [])
      | _ :: rparent =>
          match mkdir_parents_rev t rparent true with
          | inl e => inl e
          | inr t1 => mkdir t1 (List.rev rp) exist_ok
          end
      end
  | inl e =>
      if exist_ok && is_dir t (List.rev rp) then inr t
      else inl (e, List.rev rp)
  end.

Definition mkdir_parents (t : gmap (list string) node) (p : list string)
    (exist_ok : bool) : errno * list string + gmap (list string) node :=
  mkdir_parents_rev t (List.rev p) exist_ok.

End FS.

(** ** [datetime] *)

Module Datetime.

(** a [datetime.datetime] value; Python keeps [year] within 1..9999 and
    the other fields within their calendar ranges *)
Record datetime := mk {
  year : nat; month : nat; day : nat;
  hour : nat; minute : nat; second : nat; microsecond : nat
}.

Definition digit (n : nat) : ascii := ascii_of_nat (48 + n mod 10).

(** the last [width] decimal digits of [n], zero padded *)
Fixpoint zpad (width : nat) (n : nat) : string :=
  match width with
  | O => EmptyString
  | S w => zpad w (n / 10) +:+ String (digit n) EmptyString
  end.

(** [d.isoformat()]: the fraction is left out when it is zero *)
Definition isoformat (d : datetime) : string :=
  zpad 4 (year d) +:+ "-" +:+ zpad 2 (month d) +:+ "-" +:+ zpad 2 (day d)
  +:+ "T" +:+ zpad 2 (hour d) +:+ ":" +:+ zpad 2 (minute d)
  +:+ ":" +:+ zpad 2 (second d)
  +:+ (if Nat.eqb (microsecond d) 0 then EmptyString
       else "." +:+ zpad 6 (microsecond d)).

(** [d.strftime("%Y-%m-%d %H:%M")] *)
Definition strftime_minutes (d : datetime) : string :=
  zpad 4 (year d) +:+ "-" +:+ zpad 2 (month d) +:+ "-" +:+ zpad 2 (day d)
  +:+ " " +:+ zpad 2 (hour d) +:+ ":" +:+ zpad 2 (minute d).

End Datetime.

(** ** [json] *)

Module Json.

#[local] Set Warnings "-register-all".

Inductive json :=
| JNull
| JBool (b : bool)
| JNum (z : Z)
| JStr (s : string)
| JList (items : list json)
| JDict (members : list (string * json)).

Definition hex_digit (n : nat) : ascii :=
  if (n <? 10)%nat then ascii_of_nat (48 + n) else ascii_of_nat (87 + n).

(** [ESCAPE_DCT] of [json.encoder], the table used when [ensure_ascii]
    is off: backslash, double quote and the control characters below
    0x20 are escaped, everything else is written as it is *)
Definition escape_char (a : ascii) : string :=
  let n := nat_of_ascii a in
  if Nat.eqb n 92 then "\\"
  else if Nat.eqb n 34 then "\" +:+ Str.DQ
  else if Nat.eqb n 8 then "\b"
  else if Nat.eqb n 12 then "\f"
  else if Nat.eqb n 10 then "\n"
  else if Nat.eqb n 13 then "\r"
  else if Nat.eqb n 9 then "\t"
  else if (n <? 32)%nat
       then "\u00" +:+ String (hex_digit (n / 16))
                        (String (hex_digit (n mod 16)) EmptyString)
  else String a EmptyString.

Fixpoint escape (s : string) : string :=
  match s with
  | EmptyString => EmptyString
  | String a rest => escape_char a +:+ escape rest
  end.

(** [encode_basestring(s)] *)
Definition encode_string (s : string) : string :=
  Str.DQ +:+ escape s +:+ Str.DQ.

Fixpoint spaces (n : nat) : string :=
  match n with
  | O => EmptyString
  | S n' => " " +:+ spaces n'
  end.

(** the line break followed by the indentation of nesting [level],
    for [indent=2] *)
Definition newline_indent (level : nat) : string :=
  Str.NL +:+ spaces (2 * level).

(** [json.dumps(v, indent=2, ensure_ascii=False)] at nesting [level]:
    items are separated by a comma and a line break, keys are followed
    by a colon and a space, empty containers stay on one line *)
Fixpoint encode (level : nat) (v : json) : string :=
  match v with
  | JNull => "null"
  | JBool true => "true"
  | JBool false => "false"
  | JNum z => pretty z
  | JStr s => encode_string s
  | JList [] => "[]"
  | JList items =>
      "[" +:+ newline_indent (S level)
      +:+ Str.join ("," +:+ newline_indent (S level))
            (List.map (encode (S level)) items)
      +:+ newline_indent level +:+ "]"
  | JDict [] => "{}"
  | JDict members =>
      "{" +:+ newline_indent (S level)
      +:+ Str.join ("," +:+ newline_indent (S level))
            (List.map (fun kv => encode_string (fst kv) +:+ ": "
                                 +:+ encode (S level) (snd kv)) members)
      +:+ newline_indent level +:+ "}"
  end.

Definition dumps (v : json) : string := encode 0 v.

(** [d[key]] on a decoded object, in which the last of several members
    with one key is the one kept; [None] stands for [KeyError] and for a
    value that is no object *)
Fixpoint assoc (key : string) (members : list (string * json)) : option json :=
match members with
| [] => None
| (k, v) :: rest =>
    match assoc key rest with
    | Some v' => Some v'
    | None => if String.eqb k key then Some v else None
    end
end.

Definition get (key : string) (v : json) : option json :=
  match v with
  | JDict members => assoc key members
  | _ => None
  end.

(** *** Decoding *)

Definition is_ws (a : ascii) : bool :=
let n := nat_of_ascii a in
Nat.eqb n 32 || Nat.eqb n 10 || Nat.eqb n 13 || Nat.eqb n 9.

Fixpoint skip_ws (s : string) : string :=
match s with
| String a rest => if is_ws a then skip_ws rest else s
| EmptyString => s
end.

Definition hex_value (a : ascii) : option nat :=
let n := nat_of_ascii a in
if (48 <=? n)%nat && (n <=? 57)%nat then Some (n - 48)%nat
else if (97 <=? n)%nat && (n <=? 102)%nat then Some (n - 87)%nat
else if (65 <=? n)%nat && (n <=? 70)%nat then Some (n - 55)%nat
else None.

Definition hex4 (a b c d : ascii) : option nat :=
match hex_value a, hex_value b, hex_value c, hex_value d with
| Some x, Some y, Some z, Some t => Some (((x * 16 + y) * 16 + z) * 16 + t)%nat
| _, _, _, _ => None
end.

(** the UTF-8 bytes of a code point of the basic plane *)
Definition utf8 (cp : nat) : string :=
if (cp <? 128)%nat then String (ascii_of_nat cp) EmptyString
else if (cp <? 2048)%nat
then String (ascii_of_nat (192 + cp / 64))
       (String (ascii_of_nat (128 + cp mod 64)) EmptyString)
else String (ascii_of_nat (224 + cp / 4096))
       (String (ascii_of_nat (128 + (cp / 64) mod 64))
          (String (ascii_of_nat (128 + cp mod 64)) EmptyString)).

(** the character a one-letter escape stands for *)
Definition unescape (e : ascii) : option ascii :=
let n := nat_of_ascii e in
if Nat.eqb n 34 then Some (ascii_of_nat 34)
else if Nat.eqb n 92 then Some (ascii_of_nat 92)
else if Nat.eqb n 47 then Some (ascii_of_nat 47)
else if Nat.eqb n 98 then Some (ascii_of_nat 8)
else if Nat.eqb n 102 then Some (ascii_of_nat 12)
else if Nat.eqb n 110 then Some (ascii_of_nat 10)
else if Nat.eqb n 114 then Some (ascii_of_nat 13)
else if Nat.eqb n 116 then Some (ascii_of_nat 9)
else None.

(** the text of a string up to its closing quote, and what follows the
    quote; raw control characters are refused, as [json.loads] does *)
Fixpoint read_string (s : string) : option (string * string) :=
match s with
| EmptyString => None
| String a rest =>
    let n := nat_of_ascii a in
    if Nat.eqb n 34 then Some (EmptyString, rest)
    else if Nat.eqb n 92 then
      match rest with
      | String e rest1 =>
          if Nat.eqb (nat_of_ascii e) 117 then
            match rest1 with
            | String h1 (String h2 (String h3 (String h4 rest2))) =>
                match hex4 h1 h2 h3 h4, read_string rest2 with
                | Some cp, Some (str, r) => Some (utf8 cp +:+ str, r)
                | _, _ => None
                end
            | _ => None
            end
          else
            match unescape e, read_string rest1 with
            | Some c, Some (str, r) => Some (String c str, r)
            | _, _ => None
            end
      | EmptyString => None
      end
    else if (n <? 32)%nat then None
    else match read_string rest with
         | Some (str, r) => Some (String a str, r)
         | None => None
         end
end.

Fixpoint read_digits (acc : N) (s : string) : N * string :=
match s with
| String a rest =>
    if Str.is_digit a
    then read_digits (acc * 10 + (N.of_nat (nat_of_ascii a) - 48))%N rest
    else (acc, s)
| EmptyString => (acc, s)
end.

(** the digits of an integer; a leading zero stands alone, and a
    fraction or an exponent (a [float] in Python) is not read *)
Definition read_natural (s : string) : option (N * string) :=
match s with
| String a rest =>
    if Str.is_digit a then
      let (n, r) := read_digits 0 s in
      let followed :=
        match r with
        | String b _ => Ascii.eqb b "." || Ascii.eqb b "e" || Ascii.eqb b "E"
        | EmptyString => false
        end in
      let leading_zero :=
        Ascii.eqb a "0" && match rest with
                           | String b _ => Str.is_digit b
                           | EmptyString => false
                           end in
      if followed || leading_zero then None else Some (n, r)
    else None
| EmptyString => None
end.

Definition read_number (s : string) : option (Z * string) :=
match s with
| String a rest =>
    if Ascii.eqb a "-" then
      match read_natural rest with
      | Some (n, r) => Some (- Z.of_N n, r)
      | None => None
      end
    else match read_natural s with
         | Some (n, r) => Some (Z.of_N n, r)
         | None => None
         end
| EmptyString => None
end.

(** One value at the head of [s], and the rest of [s].  [fuel] bounds
    the nesting and the number of items; the length of the text is
    enough. *)
Fixpoint parse_value (fuel : nat) (s : string) : option (json * string) :=
match fuel with
| O => None
| S f =>
    match s with
    | EmptyString => None
    | String c rest =>
        if Ascii.eqb c Str.dquote then
          match read_string rest with
          | Some (str, r) => Some (JStr str, r)
          | None => None
          end
        else if Ascii.eqb c "[" then
          match skip_ws rest with
          | String c' r =>
              if Ascii.eqb c' "]" then Some (JList [], r)
              else match parse_items f (String c' r) with
                   | Some (vs, r') => Some (JList vs, r')
                   | None => None
                   end
          | EmptyString => None
          end
        else if Ascii.eqb c "{" then
          match skip_ws rest with
          | String c' r =>
              if Ascii.eqb c' "}" then Some (JDict [], r)
              else match parse_members f (String c' r) with
                   | Some (ms, r') => Some (JDict ms, r')
                   | None => None
                   end
          | EmptyString => None
          end
        else if Str.startswith "null" s then Some (JNull, Str.drop 4 s)
        else if Str.startswith "true" s then Some (JBool true, Str.drop 4 s)
        else if Str.startswith "false" s then Some (JBool false, Str.drop 5 s)
        else match read_number s with
             | Some (z, r) => Some (JNum z, r)
             | None => None
             end
    end
end
with parse_items (fuel : nat) (s : string) : option (list json * string) :=
match fuel with
| O => None
| S f =>
    match parse_value f s with
    | Some (v, r) =>
        match skip_ws r with
        | String c r1 =>
            if Ascii.eqb c "," then
              match parse_items f (skip_ws r1) with
              | Some (vs, r2) => Some (v :: vs, r2)
              | None => None
              end
            else if Ascii.eqb c "]" then Some ([v], r1)
            else None
        | EmptyString => None
        end
    | None => None
    end
end
with parse_members (fuel : nat) (s : string)
    : option (list (string * json) * string) :=
match fuel with
| O => None
| S f =>
    match s with
    | String q0 r0 =>
        if Ascii.eqb q0 Str.dquote then
          match read_string r0 with
          | Some (k, r1) =>
              match skip_ws r1 with
              | String c r2 =>
                  if Ascii.eqb c ":" then
                    match parse_value f (skip_ws r2) with
                    | Some (v, r3) =>
                        match skip_ws r3 with
                        | String c' r4 =>
                            if Ascii.eqb c' "," then
                              match parse_members f (skip_ws r4) with
                              | Some (ms, r5) => Some ((k, v) :: ms, r5)
                              | None => None
                              end
                            else if Ascii.eqb c' "}" then Some ([(k, v)], r4)
                            else None
                        | EmptyString => None
                        end
                    | None => None
                    end
                  else None
              | EmptyString => None
              end
          | None => None
          end
        else None
    | EmptyString => None
    end
end.

(** [json.loads(s)] for documents without floats, and without escaped
    surrogate pairs in their strings; [None] stands for
    [JSONDecodeError] *)
Definition loads (s : string) : option json :=
match parse_value (S (String.length s)) (skip_ws s) with
| Some (v, r) =>
    match skip_ws r with
    | EmptyString => Some v
    | String _ _ => None
    end
| None => None
end.

End Json.

(** ** Programs: state and exceptions *)

Module Py.

(** the two exceptions that leave the script: an [OSError] (with its
    [filename]) from the file system, and the [SystemExit] of
    [argparse] *)
Inductive exn :=
| OSError (e : FS.errno) (filename : list string)
| SystemExit (code : Z).

Inductive result (A : Type) :=
| Ok (a : A)
| Raise (x : exn).
Arguments Ok {A} a.
Arguments Raise {A} x.

(** what a run can see and change: the file system, the working
    directory, the successive readings of the clock with the number of
    readings taken so far, and the lines printed *)
Record world := mkWorld {
  fs : gmap (list string) FS.node;
  cwd : list string;
  clock : nat -> Datetime.datetime;
  ticks : nat;
  stdout : list string
}.

Definition set_fs (w : world) (t : gmap (list string) FS.node) : world :=
  mkWorld t (cwd w) (clock w) (ticks w) (stdout w).

Definition M (A : Type) : Type := world -> result A * world.

Definition ret {A} (a : A) : M A := fun w => (Ok a, w).

Definition bind {A B} (m : M A) (k : A -> M B) : M B :=
  fun w =>
    match m w with
    | (Ok a, w') => k a w'
    | (Raise x, w') => (Raise x, w')
    end.

Definition raise {A} (x : exn) : M A := fun w => (Raise x, w).

(** [datetime.now()]: the next reading of the clock *)
Definition now : M Datetime.datetime :=
  fun w => (Ok (clock w (ticks w)),
            mkWorld (fs w) (cwd w) (clock w) (S (ticks w)) (stdout w)).

(** [print(line)] *)
Definition print (line : string) : M unit :=
  fun w => (Ok tt,
            mkWorld (fs w) (cwd w) (clock w) (ticks w) (stdout w ++ [line])).

(** a system call on path [p] *)
Definition syscall (p : list string)
    (op : gmap (list string) FS.node -> FS.errno + gmap (list string) FS.node)
    : M unit :=
  fun w =>
    match op (fs w) with
    | inr t => (Ok tt, set_fs w t)
    | inl e => (Raise (OSError e p), w)
    end.

(** a [pathlib] call that changes the file system *)
Definition pathcall
    (op : gmap (list string) FS.node
          -> FS.errno * list string + gmap (list string) FS.node)
    : M unit :=
  fun w =>
    match op (fs w) with
    | inr t => (Ok tt, set_fs w t)
    | inl (e, p) => (Raise (OSError e p), w)
    end.

(** a call that only reads the file system *)
Definition query {A} (f : gmap (list string) FS.node -> A) : M A :=
  fun w => (Ok (f (fs w)), w).

Definition getcwd : M (list string) := fun w => (Ok (cwd w), w).

End Py.

Declare Scope py_scope.
Delimit Scope py_scope with py.
Notation "x <- m ;; k" := (Py.bind m (fun x => k))
  (at level 100, m at next level, right associativity) : py_scope.
Notation "m ;; k" := (Py.bind m (fun _ => k))
  (at level 100, right associativity) : py_scope.

(** ** The script *)

Module Harness.

Import Json.
Local Open Scope py_scope.

(** *** [create_feature_list] *)

(** the dictionary literal of [create_feature_list], with the two
    [datetime.now().isoformat()] values it embeds *)
Definition feature_list (project_name description created last_updated : string)
    : json :=
  JDict [
    ("project", JDict [
      ("name", JStr project_name);
      ("description", JStr description);
      ("created", JStr created)
    ]);
    ("features", JList [
      JDict [
        ("id", JNum 1);
        ("category", JStr "setup");
        ("description", JStr "Project initialization and basic structure");
        ("steps", JList [
          JStr "Create project directory structure";
          JStr "Initialize package management";
          JStr "Verify basic setup works"
        ]);
        ("priority", JStr "high");
        ("passes", JBool false)
      ];
      JDict [
        ("id", JNum 2);
        ("category", JStr "core");
        ("description", JStr "[TODO: Add core feature description]");
        ("steps", JList [
          JStr "[TODO: Add verification step 1]";
          JStr "[TODO: Add verification step 2]"
        ]);
        ("priority", JStr "high");
        ("passes", JBool false)
      ]
    ]);
    ("metadata", JDict [
      ("total_features", JNum 2);
      ("completed_features", JNum 0);
      ("last_updated", JStr last_updated)
    ])
  ].

Definition create_feature_list (project_name : string)
    (harness_dir : list string) (description : string) : Py.M unit :=
  created <- Py.now ;;
  last_updated <- Py.now ;;
  let doc := feature_list project_name description
               (Datetime.isoformat created) (Datetime.isoformat last_updated) in
  let output_path := Path.joinpath harness_dir "feature_list.json" in
  Py.syscall output_path (fun t => FS.write_file t output_path (dumps doc)) ;;
  Py.print ("✅ Created " +:+ Path.to_string output_path).

(** *** [create_progress_file] *)

(** the f-string of [create_progress_file], with the two
    [datetime.now().strftime(...)] values it embeds *)
Definition progress_content (project_name description created session : string)
    : string :=
  Str.unlines [
    "# Project Progress Log";
    "";
    "## Project: " +:+ project_name;
    "**Description:** " +:+ description;
    "**Created:** " +:+ created;
    "";
    "---";
    "";
    "## Session: " +:+ session +:+ " (Initialization)";
    "";
    "### What was done:";
    "- Initialized project harness";
    "- Created feature_list.json with initial feature requirements";
    "- Created progress.txt for session tracking";
    "- Created init.sh for environment setup";
    "";
    "### Current State:";
    "- Project is ready for development";
    "- Feature list needs to be expanded based on requirements";
    "";
    "### Next Steps:";
    "- Review and expand feature_list.json with all required features";
    "- Implement the first feature from the list";
    "";
    "---";
    "";
    "## Notes for Future Sessions";
    "";
    "When starting a new session:";
    "1. Read this file to understand recent progress";
    "2. Check git log for commit history";
    "3. Review feature_list.json for next task";
    "4. Run ./init.sh to start development environment";
    "5. Pick ONE feature and implement it";
    "6. Update this file before ending session";
    ""
  ].

Definition create_progress_file (project_name : string)
    (harness_dir : list string) (description : string) : Py.M unit :=
  created <- Py.now ;;
  session <- Py.now ;;
  let content := progress_content project_name description
                   (Datetime.strftime_minutes created)
                   (Datetime.strftime_minutes session) in
  let output_path := Path.joinpath harness_dir "progress.txt" in
  Py.syscall output_path (fun t => FS.write_file t output_path content) ;;
  Py.print ("✅ Created " +:+ Path.to_string output_path).

(** *** [create_init_script] *)

(** [s] between double quotes *)
Definition q (s : string) : string := Str.DQ +:+ s +:+ Str.DQ.

(** the string literal of [create_init_script] *)
Definition init_script_content : string :=
  Str.unlines [
    "#!/bin/bash";
    "# Development Environment Initialization Script";
    "# Run this at the start of each coding session";
    "";
    "set -e";
    "";
    "echo " +:+ q "🚀 Starting development environment...";
    "";
    "# Resolve paths";
    "SCRIPT_DIR=" +:+ q ("$(cd " +:+ q ("$(dirname " +:+ q "$0" +:+ ")") +:+ " && pwd)");
    "PROJECT_ROOT=" +:+ q ("$(cd " +:+ q "$SCRIPT_DIR/../.." +:+ " && pwd)");
    "";
    "# Navigate to project root";
    "cd " +:+ q "$PROJECT_ROOT";
    "";
    "# Check for common package managers and install dependencies";
    "if [ -f " +:+ q "package.json" +:+ " ]; then";
    "    echo " +:+ q "📦 Installing Node.js dependencies...";
    "    npm install";
    "elif [ -f " +:+ q "requirements.txt" +:+ " ]; then";
    "    echo " +:+ q "🐍 Installing Python dependencies...";
    "    pip install -r requirements.txt";
    "elif [ -f " +:+ q "Cargo.toml" +:+ " ]; then";
    "    echo " +:+ q "🦀 Building Rust project...";
    "    cargo build";
    "elif [ -f " +:+ q "go.mod" +:+ " ]; then";
    "    echo " +:+ q "🐹 Installing Go dependencies...";
    "    go mod download";
    "fi";
    "";
    "# Start development server (customize based on your project)";
    "# Uncomment and modify the appropriate line:";
    "";
    "# Node.js";
    "# npm run dev &";
    "";
    "# Python Flask";
    "# python app.py &";
    "";
    "# Python Django";
    "# python manage.py runserver &";
    "";
    "# Go";
    "# go run main.go &";
    "";
    "echo " +:+ q "✅ Development environment ready!";
    "echo " +:+ q "";
    "echo " +:+ q "📋 Quick commands:";
    "echo " +:+ q "   - Check progress: cat $SCRIPT_DIR/progress.txt";
    "echo " +:+ q "   - View features:  cat $SCRIPT_DIR/feature_list.json";
    "echo " +:+ q "   - Git history:    git log --oneline -10"
  ].

Definition create_init_script (harness_dir : list string) : Py.M unit :=
  let content := init_script_content in
  let output_path := Path.joinpath harness_dir "init.sh" in
  Py.syscall output_path (fun t => FS.write_file t output_path content) ;;
  Py.syscall output_path (fun t => FS.chmod t output_path FS.mode_0o755) ;;
  Py.print ("✅ Created " +:+ Path.to_string output_path).

End Harness.

(** ** [argparse]

    The parser of [main] has three required positionals and the implicit
    [-h]/[--help].  The model keeps what decides the exit of
    [parse_args]: a help flag leaves with status 0, an unknown option or
    a wrong number of positionals with status 2, and nothing else
    happens.  The messages of [argparse] are not part of the model. *)

Module Argparse.

Record namespace := mkNamespace {
  project_path : string;
  feature_name : string;
  description : string
}.

Inductive kind := Help | Malformed | Positional | Unknown.

(** [-5], [-.5], [-1.25]: taken as positionals *)
Definition looks_negative (s : string) : bool :=
  match s with
  | String a rest =>
      Ascii.eqb a "-" &&
      match Str.split_on "." rest with
      | [n] => negb (String.eqb n "") && Str.all_chars Str.is_digit n
      | [n; f] => Str.all_chars Str.is_digit n
                  && negb (String.eqb f "") && Str.all_chars Str.is_digit f
      | _ => false
      end
  | EmptyString => false
  end.

(** [--help] and its unambiguous abbreviations *)
Definition long_help (s : string) : bool :=
  (3 <=? String.length s)%nat && Str.startswith s "--help".

Definition classify (s : string) : kind :=
  if String.eqb s "-h" || long_help s then Help
  else if Str.startswith "-h" s then Malformed
  else if Str.startswith "--" s && Str.contains_char "=" s
          && match Str.split_on "=" s with
             | flag :: _ => long_help flag
             | [] => false
             end
  then Malformed
  else if negb (Str.startswith "-" s) || String.eqb s "-"
          || looks_negative s || Str.contains_char " " s
  then Positional
  else Unknown.

Definition finish (positionals : list string) (unknown : bool)
    : Z + namespace :=
  match positionals with
  | [p; f; d] => if unknown then inl 2 else inr (mkNamespace p f d)
  | _ => inl 2
  end.

(** one pass over the command line; after [--] everything is a
    positional *)
Fixpoint scan (args : list string) (positionals : list string)
    (unknown : bool) : Z + namespace :=
  match args with
  | [] => finish positionals unknown
  | a :: rest =>
      if String.eqb a "--" then finish (positionals ++ rest) unknown
      else match classify a with
           | Help => inl 0
           | Malformed => inl 2
           | Positional => scan rest (positionals ++ [a]) unknown
           | Unknown => scan rest positionals true
           end
  end.

(** [parser.parse_args()] on [sys.argv[1:]] *)
Definition parse_args (argv : list string) : Py.M namespace :=
  match scan argv [] false with
  | inr ns => Py.ret ns
  | inl code => Py.raise (Py.SystemExit code)
  end.

End Argparse.

(** ** [main] and the process *)

Module Main.

Import Harness.
Local Open Scope py_scope.

(** [project_path / "long_running" / args.feature_name] *)
Definition harness_dir_of (project_path : list string) (feature_name : string)
    : list string :=
  Path.joinpath (Path.joinpath project_path "long_running") feature_name.

(** lines 201 to 214 of [main]: the arguments are parsed, the two
    paths computed, the two directories made and the heading printed;
    the result is what the rest of [main] uses *)
Definition prepare (argv : list string)
    : Py.M (Argparse.namespace * list string * list string) :=
  args <- Argparse.parse_args argv ;;
  cwd <- Py.getcwd ;;
  let project_path := Path.resolve cwd (Argparse.project_path args) in
  let harness_dir := harness_dir_of project_path (Argparse.feature_name args) in
  present <- Py.query (fun t => FS.exists_ t project_path) ;;
  (if present then Py.ret tt
   else
     Py.pathcall (fun t => FS.mkdir_parents t project_path false) ;;
     Py.print ("📁 Created project directory: " +:+ Path.to_string project_path)) ;;
  Py.pathcall (fun t => FS.mkdir_parents t harness_dir true) ;;
  Py.print (Str.NL +:+ "🔧 Initializing harness for: " +:+ Path.name project_path) ;;
  Py.print ("   Description: " +:+ Argparse.description args +:+ Str.NL) ;;
  Py.ret (args, project_path, harness_dir).

(** lines 221 to 226 of [main] *)
Definition summary (args : Argparse.namespace) (project_path : list string)
    : Py.M unit :=
  Py.print (Str.NL +:+ "✅ Harness initialization complete!") ;;
  Py.print (Str.NL +:+ "Next steps:") ;;
  Py.print ("  1. cd " +:+ Path.to_string project_path) ;;
  Py.print ("  2. Edit long_running/" +:+ Argparse.feature_name args
            +:+ "/feature_list.json to add your features") ;;
  Py.print "  3. git init && git add . && git commit -m 'Initial setup'" ;;
  Py.print "  4. Start implementing features one at a time".

Definition main (argv : list string) : Py.M unit :=
  ctx <- prepare argv ;;
  let '(args, project_path, harness_dir) := ctx in
  create_feature_list (Path.name project_path) harness_dir (Argparse.description args) ;;
  create_progress_file (Path.name project_path) harness_dir (Argparse.description args) ;;
  create_init_script harness_dir ;;
  summary args project_path.

(** The exit status of the interpreter running the script: 0 when
    [main] returns, the code of a [SystemExit], 1 for any other
    exception that nothing catches. *)
Definition exit_status (r : Py.result unit) : Z :=
  match r with
  | Py.Ok _ => 0
  | Py.Raise (Py.SystemExit code) => code
  | Py.Raise (Py.OSError _ _) => 1
  end.

(** [python init_harness.py argv...] in world [w] *)
Definition run (argv : list string) (w : Py.world) : Z * Py.world :=
  let (r, w') := main argv w in (exit_status r, w').

End Main.

(** ** Reading the generated texts

    What a reader of [progress.txt] and the shell running [init.sh] make
    of the two texts. *)

Module Text.




(** *** The checklist of [progress.txt] *)

Definition notes_heading : string := "## Notes for Future Sessions".

(** a line of a numbered list: digits, a dot, a space *)
Definition is_step (line : string) : bool :=
  match Str.split_on "." line with
  | n :: rest :: _ =>
      negb (String.eqb n "") && Str.all_chars Str.is_digit n
      && Str.startswith " " rest
  | _ => false
  end.

(** the lines below the last heading [heading]: [rlines] are the
    lines of the text, last line first *)
Fixpoint below_last (heading : string) (rlines acc : list string)
    : option (list string) :=
  match rlines with
  | [] => None
  | l :: rest =>
      if String.eqb l heading then Some acc
      else below_last heading rest (l :: acc)
  end.

(** the numbered steps of the closing "Notes for Future Sessions"
    section of a progress log *)
Definition checklist (content : string) : option (list string) :=
  match below_last notes_heading (List.rev (Str.lines content)) [] with
  | Some ls => Some (List.filter is_step ls)
  | None => None
  end.

(** *** The dependency check of [init.sh] *)







(** *** The project root of [init.sh] *)

(** the line that takes [SCRIPT_DIR] to be the directory of the script *)
Definition script_dir_line : string :=
  "SCRIPT_DIR=" +:+ Str.DQ +:+ "$(cd " +:+ Str.DQ +:+ "$(dirname " +:+ Str.DQ
  +:+ "$0" +:+ Str.DQ +:+ ")" +:+ Str.DQ +:+ " && pwd)" +:+ Str.DQ.

Definition project_root_opening : string :=
  "PROJECT_ROOT=" +:+ Str.DQ +:+ "$(cd " +:+ Str.DQ +:+ "$SCRIPT_DIR".

Definition project_root_closing : string :=
  Str.DQ +:+ " && pwd)" +:+ Str.DQ.

(** the number of [/..] steps [s] starts with *)
Fixpoint leading_ups (s : string) : nat :=
  match s with
  | String "/" (String "." (String "." rest)) => S (leading_ups rest)
  | _ => O
  end.

(** how many directories above [SCRIPT_DIR] the script puts its
    [PROJECT_ROOT]: the [/..] steps of the one line that sets it *)
Definition project_root_levels (script : string) : option nat :=
  match List.filter (Str.startswith "PROJECT_ROOT=") (Str.lines script) with
  | [l] =>
      if Str.startswith project_root_opening l
      then let steps := Str.drop (String.length project_root_opening) l in
           let k := leading_ups steps in
           if String.eqb (Str.drop (3 * k) steps) project_root_closing
           then Some k else None
      else None
  | _ => None
  end.

(** [cd dir/..], [k] times over, as the shell takes it: each step drops
    the last part of the directory, and the root is its own parent *)
Fixpoint up (k : nat) (dir : list string) : list string :=
  match k with
  | O => dir
  | S k' => up k' (List.removelast dir)
  end.

End Text.

(** ** Sample worlds

    Small worlds to run the script in: a root, a home directory that is
    the working directory, and a clock that advances by one microsecond
    between two readings. *)

Module Demo.

Definition clock (n : nat) : Datetime.datetime :=
  Datetime.mk 2026 11 4 7 3 9 (1000 + n).

Definition home_fs : gmap (list string) FS.node :=
  <[ ["home"] := FS.Dir FS.mode_0o755 ]> (<[ [] := FS.Dir FS.mode_0o755 ]> ∅).

(** nothing but the home directory *)
Definition fresh : Py.world := Py.mkWorld home_fs ["home"] clock 0 [].

(** the harness directory is there already, and the name
    [progress.txt] in it is taken by a directory *)
Definition blocked_fs : gmap (list string) FS.node :=
  <[ ["home"; "proj"; "long_running"; "feat"; "progress.txt"] := FS.Dir FS.mode_0o755 ]>
    (<[ ["home"; "proj"; "long_running"; "feat"] := FS.Dir FS.mode_0o755 ]>
       (<[ ["home"; "proj"; "long_running"] := FS.Dir FS.mode_0o755 ]>
          (<[ ["home"; "proj"] := FS.Dir FS.mode_0o755 ]> home_fs))).

Definition blocked : Py.world := Py.mkWorld blocked_fs ["home"] clock 0 [].

Definition argv : list string := ["proj"; "feat"; "A demo"].

(** a project in use: a file of its own, the harness of the feature
    [feat] with a feature list that its owner alone may read and write,
    and the harness of another feature *)
Definition used_fs : gmap (list string) FS.node :=
  <[ ["home"; "proj"; "long_running"; "other"; "init.sh"] := FS.File "#!/bin/sh" (7 * 64) ]>
    (<[ ["home"; "proj"; "long_running"; "other"] := FS.Dir FS.mode_0o755 ]>
       (<[ ["home"; "proj"; "long_running"; "feat"; "feature_list.json"]
             := FS.File "{}" (6 * 64) ]>
          (<[ ["home"; "proj"; "long_running"; "feat"] := FS.Dir FS.mode_0o755 ]>
             (<[ ["home"; "proj"; "long_running"] := FS.Dir FS.mode_0o755 ]>
                (<[ ["home"; "proj"; "README"] := FS.File "hello" FS.mode_0o644 ]>
                   (<[ ["home"; "proj"] := FS.Dir FS.mode_0o755 ]> home_fs)))))).

Definition used : Py.world := Py.mkWorld used_fs ["home"] clock 0 [].



(** the name of the project is taken by a file *)
Definition file_in_the_way_fs : gmap (list string) FS.node :=
  <[ ["home"; "proj"] := FS.File "not a directory" FS.mode_0o644 ]> home_fs.

Definition file_in_the_way : Py.world :=
  Py.mkWorld file_in_the_way_fs ["home"] clock 0 [].

End Demo.

(** * Properties *)

(** ** Strings *)

Module StrFacts.

Lemma split_on_nonempty c s : Str.split_on c s ≠ [].
Proof.
  destruct s as [|a s]; simpl; [done|].
  destruct (Ascii.eqb a c); [done|]. by destruct (Str.split_on c s).
Qed.

Lemma split_on_app c a b :
  Str.split_on c (a +:+ String c b) = Str.split_on c a ++ Str.split_on c b.
Proof.
  induction a as [|x a IH]; simpl.
  - by rewrite Ascii.eqb_refl.
  - destruct (Ascii.eqb x c); [by rewrite IH|].
    rewrite IH. pose proof (split_on_nonempty c a).
    by destruct (Str.split_on c a).
Qed.

Lemma lines_unlines (ls : list string) :
  Str.lines (Str.unlines ls) = List.concat (List.map Str.lines ls) ++ [EmptyString].
Proof.
  unfold Str.lines. induction ls as [|l ls IH]; [done|].
  cbn [Str.unlines List.map List.concat].
  change (Str.NL +:+ Str.unlines ls) with (String Str.newline (Str.unlines ls)).
  by rewrite split_on_app, IH, <- app_assoc.
Qed.

Lemma append_assoc (a b c : string) : (a +:+ b) +:+ c = a +:+ (b +:+ c).
Proof.
  induction a as [|x a IH]; [done|].
  change (String x ((a +:+ b) +:+ c) = String x (a +:+ (b +:+ c))).
  by rewrite IH.
Qed.

Lemma length_append (a b : string) :
  String.length (a +:+ b) = (String.length a + String.length b)%nat.
Proof.
induction a as [|x a IH]; [done|].
change (S (String.length (a +:+ b)) = S (String.length a + String.length b)).
by rewrite IH.
Qed.

Lemma append_nil_r (s : string) : s +:+ "" = s.
Proof.
induction s as [|c s IH]; [done|].
change (String c (s +:+ "") = String c s). by rewrite IH.
Qed.

Lemma unlines_app (xs ys : list string) :
  Str.unlines (xs ++ ys) = Str.unlines xs +:+ Str.unlines ys.
Proof.
  induction xs as [|x xs IH]; [done|].
  cbn [app Str.unlines]. by rewrite IH, !append_assoc.
Qed.

End StrFacts.

(** ** Decoding what was encoded *)

Module JsonFacts.

Import Json StrFacts.

Lemma ascii_is (a : ascii) (n : nat) : nat_of_ascii a = n → a = ascii_of_nat n.
Proof. intros <-. symmetry. apply ascii_nat_embedding. Qed.

Lemma read_string_escape_char (a : ascii) (tl : string) :
  read_string (escape_char a +:+ tl) =
  match read_string tl with
  | Some (str, r) => Some (String a str, r)
  | None => None
  end.
Proof.
destruct (Nat.ltb_spec (nat_of_ascii a) 32) as [Hlt|Hge].
- assert (∃ n, (n < 32)%nat ∧ a = ascii_of_nat n) as (n & Hn & ->).
  { exists (nat_of_ascii a). split; [done|]. by apply ascii_is. }
  clear Hlt.
  do 32 (destruct n as [|n]; [reflexivity|]). lia.
- unfold escape_char. cbv zeta.
  destruct (Nat.eqb_spec (nat_of_ascii a) 92) as [E|N92].
  { apply ascii_is in E as ->. reflexivity. }
  destruct (Nat.eqb_spec (nat_of_ascii a) 34) as [E|N34].
  { apply ascii_is in E as ->. reflexivity. }
  repeat match goal with
         | |- context [Nat.eqb (nat_of_ascii a) ?k] =>
             destruct (Nat.eqb_spec (nat_of_ascii a) k) as [?|_]; [lia|]
         end.
  destruct (Nat.ltb_spec (nat_of_ascii a) 32) as [?|_]; [lia|].
  change (String a "" +:+ tl) with (String a tl).
  cbn [read_string]. cbv zeta.
  destruct (Nat.eqb_spec (nat_of_ascii a) 34) as [?|_]; [done|].
  destruct (Nat.eqb_spec (nat_of_ascii a) 92) as [?|_]; [done|].
  destruct (Nat.ltb_spec (nat_of_ascii a) 32) as [?|_]; [lia|].
  reflexivity.
Qed.

(** an escaped string is read back up to the quote that closes it *)
Lemma read_string_escape (s rest : string) :
  read_string (escape s +:+ String Str.dquote rest) = Some (s, rest).
Proof.
induction s as [|a s IH]; [done|].
cbn [escape]. by rewrite append_assoc, read_string_escape_char, IH.
Qed.

Lemma read_string_encode (s rest : string) :
  ∃ tl, encode_string s +:+ rest = String Str.dquote tl ∧
        read_string tl = Some (s, rest).
Proof.
exists (escape s +:+ String Str.dquote rest). split.
- unfold encode_string. by rewrite !append_assoc.
- apply read_string_escape.
Qed.

(** *** Numbers *)

(** what may follow a value in an encoded document: nothing, a comma or
    a line break *)
Definition closes (rest : string) : Prop :=
match rest with
| EmptyString => True
| String a _ => a = ","%char ∨ a = Str.newline
end.

Lemma pretty_N_char_digit (d : N) :
  (d < 10)%N →
  Str.is_digit (pretty_N_char d) = true ∧
  (N.of_nat (nat_of_ascii (pretty_N_char d)) - 48)%N = d.
Proof.
intros Hd.
assert (d = 0 ∨ d = 1 ∨ d = 2 ∨ d = 3 ∨ d = 4 ∨ d = 5 ∨ d = 6 ∨ d = 7
        ∨ d = 8 ∨ d = 9)%N as Hcases by lia.
repeat (destruct Hcases as [->|Hcases]; [by vm_compute|]). subst. by vm_compute.
Qed.

Lemma pretty_N_go_append (x : N) : ∀ s rest,
  pretty_N_go x s +:+ rest = pretty_N_go x (s +:+ rest).
Proof.
induction (N.lt_wf_0 x) as [x _ IH]; intros s rest.
destruct (decide (x = 0)%N) as [->|Hx]; [by rewrite !pretty_N_go_0|].
rewrite (pretty_N_go_step x s), (pretty_N_go_step x (s +:+ rest)) by lia.
rewrite IH by (apply N.div_lt; lia). reflexivity.
Qed.

Lemma read_digits_go (x : N) : ∀ s,
  (0 < x)%N → read_digits 0 (pretty_N_go x s) = read_digits x s.
Proof.
induction (N.lt_wf_0 x) as [x _ IH]; intros s Hx.
rewrite pretty_N_go_step by done.
destruct (pretty_N_char_digit (x `mod` 10)) as [Hd Hv];
  [by apply N.mod_lt|].
destruct (decide (x `div` 10 = 0)%N) as [E|Hne].
- rewrite E, pretty_N_go_0. cbn [read_digits]. rewrite Hd, Hv.
  f_equal. assert (x = 10 * (x `div` 10) + x `mod` 10)%N by (by apply N.div_mod). lia.
- rewrite IH; [|apply N.div_lt; lia|by apply N.neq_0_lt_0].
  cbn [read_digits]. rewrite Hd, Hv.
  f_equal. assert (x = 10 * (x `div` 10) + x `mod` 10)%N by (by apply N.div_mod). lia.
Qed.

Lemma pretty_N_go_head (x : N) : ∀ s,
  (0 < x)%N →
  ∃ a tl, pretty_N_go x s = String a tl ∧
          Str.is_digit a = true ∧ Ascii.eqb a "0" = false.
Proof.
induction (N.lt_wf_0 x) as [x _ IH]; intros s Hx.
rewrite pretty_N_go_step by done.
destruct (decide (x `div` 10 = 0)%N) as [E|Hne].
- rewrite E, pretty_N_go_0. eexists _, _. split; [done|].
  assert (x `mod` 10 = x)%N as -> by (pose proof (N.div_mod x 10); lia).
  assert (x < 10)%N as Hlt.
  { assert (x = 10 * (x `div` 10) + x `mod` 10)%N by (by apply N.div_mod). assert (x `mod` 10 < 10)%N by (by apply N.mod_lt). lia. }
  assert (x = 1 ∨ x = 2 ∨ x = 3 ∨ x = 4 ∨ x = 5 ∨ x = 6 ∨ x = 7
          ∨ x = 8 ∨ x = 9)%N as Hcases by lia.
  repeat (destruct Hcases as [->|Hcases]; [by vm_compute|]). subst. by vm_compute.
- apply IH; [apply N.div_lt; lia|by apply N.neq_0_lt_0].
Qed.

Lemma read_digits_closed (n : N) (rest : string) :
  closes rest → read_digits n rest = (n, rest).
Proof. destruct rest as [|a rest]; [done|]. by intros [->| ->]. Qed.

Lemma closes_not_followed (rest : string) :
  closes rest →
  match rest with
  | String b _ => Ascii.eqb b "." || Ascii.eqb b "e" || Ascii.eqb b "E"
  | EmptyString => false
  end = false ∧
  match rest with
  | String b _ => Str.is_digit b
  | EmptyString => false
  end = false.
Proof. destruct rest as [|a rest]; [done|]. by intros [->| ->]. Qed.

Lemma read_natural_pretty (n : N) (rest : string) :
  closes rest → read_natural (pretty n +:+ rest) = Some (n, rest).
Proof.
intros Hc. destruct (closes_not_followed _ Hc) as [Hf Hz].
unfold pretty, pretty_N. destruct (decide (n = 0)%N) as [->|Hn].
- change ("0" +:+ rest) with (String "0" rest).
  unfold read_natural.
  change (read_digits 0 (String "0" rest)) with (read_digits 0 rest).
  rewrite (read_digits_closed _ _ Hc), Hf, Hz. done.
- rewrite pretty_N_go_append. change ("" +:+ rest) with rest.
  destruct (pretty_N_go_head n rest) as (a & tl & E & Hd & Hnz); [lia|].
  pose proof (read_digits_go n rest) as Hr. rewrite E in Hr |- *.
  unfold read_natural. rewrite Hd, Hr by lia.
  rewrite (read_digits_closed _ _ Hc), Hf, Hnz. done.
Qed.

Lemma pretty_N_head (n : N) (rest : string) :
  ∃ a tl, pretty n +:+ rest = String a tl ∧ Str.is_digit a = true.
Proof.
unfold pretty, pretty_N. destruct (decide (n = 0)%N) as [->|Hn].
- by exists "0"%char, rest.
- rewrite pretty_N_go_append.
  destruct (pretty_N_go_head n ("" +:+ rest)) as (a & tl & E & Hd & _); [lia|].
  by exists a, tl.
Qed.

Lemma digit_not_minus (a : ascii) :
  Str.is_digit a = true → Ascii.eqb a "-" = false.
Proof.
intros Hd. destruct (Ascii.eqb_spec a "-") as [->|]; [done|done].
Qed.

Lemma read_number_pretty (z : Z) (rest : string) :
  closes rest → read_number (pretty z +:+ rest) = Some (z, rest).
Proof.
intros Hc. destruct z as [|p|p].
- change (pretty 0 +:+ rest) with (pretty 0%N +:+ rest).
  destruct (pretty_N_head 0 rest) as (a & tl & E & Hd).
  pose proof (read_natural_pretty 0 rest Hc) as Hr. rewrite E in Hr |- *.
  unfold read_number. by rewrite (digit_not_minus _ Hd), Hr.
- change (pretty (Z.pos p) +:+ rest) with (pretty (N.pos p) +:+ rest).
  destruct (pretty_N_head (N.pos p) rest) as (a & tl & E & Hd).
  pose proof (read_natural_pretty (N.pos p) rest Hc) as Hr. rewrite E in Hr |- *.
  unfold read_number. by rewrite (digit_not_minus _ Hd), Hr.
- change (pretty (Z.neg p) +:+ rest)
    with (String "-" (pretty (N.pos p) +:+ rest)).
  unfold read_number.
  change (Ascii.eqb "-" "-") with true. cbv iota.
  by rewrite (read_natural_pretty (N.pos p) rest Hc).
Qed.

(** *** White space and first characters *)

Lemma skip_ws_spaces (n : nat) (s : string) :
  skip_ws (spaces n +:+ s) = skip_ws s.
Proof. induction n as [|n IH]; [done|exact IH]. Qed.

Lemma skip_ws_newline_indent (level : nat) (s : string) :
  skip_ws (newline_indent level +:+ s) = skip_ws s.
Proof.
unfold newline_indent. rewrite append_assoc.
change (skip_ws (spaces (2 * level) +:+ s) = skip_ws s).
apply skip_ws_spaces.
Qed.

(** the first character of an encoded value: no white space, and not a
    closing bracket *)
Definition opens (s : string) : Prop :=
match s with
| String c _ =>
    is_ws c = false ∧ Ascii.eqb c "]" = false ∧ Ascii.eqb c "}" = false
| EmptyString => False
end.

Lemma skip_ws_opens (s : string) : opens s → skip_ws s = s.
Proof. destruct s as [|c s]; [done|]. intros (Hw & _). cbn. by rewrite Hw. Qed.

Lemma opens_append (s rest : string) : opens s → opens (s +:+ rest).
Proof. by destruct s. Qed.

Lemma digit_cases (a : ascii) :
  Str.is_digit a = true →
  a ∈ ["0"; "1"; "2"; "3"; "4"; "5"; "6"; "7"; "8"; "9"]%char.
Proof.
unfold Str.is_digit. cbv zeta. intros [H1 H2]%andb_prop.
apply Nat.leb_le in H1, H2.
assert (∃ n, (n < 10)%nat ∧ a = ascii_of_nat (48 + n)) as (n & Hn & ->).
{ exists (nat_of_ascii a - 48)%nat. split; [lia|].
  apply ascii_is. lia. }
do 10 (destruct n as [|n]; [set_solver|]). lia.
Qed.

Lemma opens_number (z : Z) : opens (pretty z).
Proof.
destruct z as [|p|p]; [done| |done].
change (pretty (Z.pos p)) with (pretty (N.pos p)).
destruct (pretty_N_head (N.pos p) "") as (a & tl & E & Hd).
assert (pretty (N.pos p) +:+ "" = pretty (N.pos p)) as Hnil.
{ generalize (pretty (N.pos p)). intros s.
  induction s as [|c s IH]; [done|].
  change (String c (s +:+ "") = String c s). by rewrite IH. }
rewrite Hnil in E. rewrite E.
apply digit_cases in Hd. set_unfold in Hd.
by repeat (destruct Hd as [->|Hd]; [done|]).
Qed.

Lemma opens_encode (level : nat) (v : json) : opens (encode level v).
Proof.
destruct v as [|[]|z|s|[|v vs]|[|m ms]]; try done.
apply opens_number.
Qed.

(** *** The decoder, one step at a time *)

Lemma parse_value_string (f : nat) (tl : string) :
  parse_value (S f) (String Str.dquote tl) =
  match read_string tl with
  | Some (str, r) => Some (JStr str, r)
  | None => None
  end.
Proof. reflexivity. Qed.

Lemma parse_value_number (f : nat) (s : string) (z : Z) (r : string) :
  (∃ a tl, s = String a tl ∧ (Str.is_digit a = true ∨ a = "-"%char)) →
  read_number s = Some (z, r) →
  parse_value (S f) s = Some (JNum z, r).
Proof.
intros (a & tl & -> & Ha) Hr.
assert (a ∈ ["0"; "1"; "2"; "3"; "4"; "5"; "6"; "7"; "8"; "9"; "-"]%char) as Hin.
{ destruct Ha as [Hd| ->].
  - apply digit_cases in Hd. set_unfold. set_unfold in Hd. tauto.
  - set_unfold. tauto. }
set_unfold in Hin.
assert (∀ c, a = c →
          parse_value (S f) (String c tl) =
          match read_number (String c tl) with
          | Some (z, r) => Some (JNum z, r)
          | None => None
          end → parse_value (S f) (String a tl) = Some (JNum z, r)) as Hstep.
{ intros c -> ->. by rewrite Hr. }
repeat (destruct Hin as [E|Hin]; [by apply (Hstep _ E)|]).
first [by apply (Hstep _ Hin) | by destruct Hin].
Qed.

Lemma parse_items_step (f : nat) (s : string) :
  parse_items (S f) s =
  match parse_value f s with
  | Some (v, r) =>
      match skip_ws r with
      | String c r1 =>
          if Ascii.eqb c "," then
            match parse_items f (skip_ws r1) with
            | Some (vs, r2) => Some (v :: vs, r2)
            | None => None
            end
          else if Ascii.eqb c "]" then Some ([v], r1)
          else None
      | EmptyString => None
      end
  | None => None
  end.
Proof. reflexivity. Qed.

Lemma parse_value_list (f : nat) (rest : string) :
  opens (skip_ws rest) →
  parse_value (S f) (String "[" rest) =
  match parse_items f (skip_ws rest) with
  | Some (vs, r') => Some (JList vs, r')
  | None => None
  end.
Proof.
intros Ho.
change (parse_value (S f) (String "[" rest)) with
  (match skip_ws rest with
   | String c' r =>
       if Ascii.eqb c' "]" then Some (JList [], r)
       else match parse_items f (String c' r) with
            | Some (vs, r') => Some (JList vs, r')
            | None => None
            end
   | EmptyString => None
   end).
destruct (skip_ws rest) as [|c r]; [done|].
destruct Ho as (_ & -> & _). done.
Qed.

Lemma parse_value_dict (f : nat) (rest : string) :
  opens (skip_ws rest) →
  parse_value (S f) (String "{" rest) =
  match parse_members f (skip_ws rest) with
  | Some (ms, r') => Some (JDict ms, r')
  | None => None
  end.
Proof.
intros Ho.
change (parse_value (S f) (String "{" rest)) with
  (match skip_ws rest with
   | String c' r =>
       if Ascii.eqb c' "}" then Some (JDict [], r)
       else match parse_members f (String c' r) with
            | Some (ms, r') => Some (JDict ms, r')
            | None => None
            end
   | EmptyString => None
   end).
destruct (skip_ws rest) as [|c r]; [done|].
destruct Ho as (_ & _ & ->). done.
Qed.

Lemma parse_members_step (f : nat) (r0 : string) :
  parse_members (S f) (String Str.dquote r0) =
  match read_string r0 with
  | Some (k, r1) =>
      match skip_ws r1 with
      | String c r2 =>
          if Ascii.eqb c ":" then
            match parse_value f (skip_ws r2) with
            | Some (v, r3) =>
                match skip_ws r3 with
                | String c' r4 =>
                    if Ascii.eqb c' "," then
                      match parse_members f (skip_ws r4) with
                      | Some (ms, r5) => Some ((k, v) :: ms, r5)
                      | None => None
                      end
                    else if Ascii.eqb c' "}" then Some ([(k, v)], r4)
                    else None
                | EmptyString => None
                end
            | None => None
            end
          else None
      | EmptyString => None
      end
  | None => None
  end.
Proof. reflexivity. Qed.

(** *** The round trip *)

Lemma json_nested_ind (P : json → Prop) :
  P JNull → (∀ b, P (JBool b)) → (∀ z, P (JNum z)) → (∀ s, P (JStr s)) →
  (∀ items, Forall P items → P (JList items)) →
  (∀ members, Forall (λ kv, P kv.2) members → P (JDict members)) →
  ∀ v, P v.
Proof.
intros Hnull Hbool Hnum Hstr Hlist Hdict.
fix IH 1. intros [|b|z|s|items|members].
- exact Hnull.
- apply Hbool.
- apply Hnum.
- apply Hstr.
- apply Hlist.
  refine ((fix go (l : list json) : Forall P l :=
             match l with
             | [] => @List.Forall_nil _ _
             | x :: l' => @List.Forall_cons _ P x l' (IH x) (go l')
             end) items).
- apply Hdict.
  refine ((fix go (l : list (string * json)) : Forall (λ kv, P kv.2) l :=
             match l with
             | [] => @List.Forall_nil _ _
             | (k, x) :: l' => @List.Forall_cons _ (λ kv, P kv.2) (k, x) l' (IH x) (go l')
             end) members).
Qed.

(** [v], encoded at any nesting level and followed by anything that may
    follow a value, is read back, and the rest is left *)
Definition decodes (v : json) : Prop :=
  ∀ level rest fuel,
    closes rest → (String.length (encode level v) ≤ fuel)%nat →
    parse_value fuel (encode level v +:+ rest) = Some (v, rest).

Lemma length_newline_indent (level : nat) :
  (1 ≤ String.length (newline_indent level))%nat.
Proof. unfold newline_indent. rewrite length_append. cbn. lia. Qed.

Lemma closes_newline_indent (level : nat) (s : string) :
  closes (newline_indent level +:+ s).
Proof. by right. Qed.

Lemma join_cons2 (sep x y : string) (rest : list string) :
  Str.join sep (x :: y :: rest) = x +:+ sep +:+ Str.join sep (y :: rest).
Proof. reflexivity. Qed.

Lemma opens_join (sep : string) (level : nat) (v : json) (vs : list json) :
  opens (Str.join sep (List.map (encode level) (v :: vs))).
Proof.
destruct vs as [|v2 vs].
- apply opens_encode.
- change (opens (encode level v +:+ sep
                 +:+ Str.join sep (List.map (encode level) (v2 :: vs)))).
  apply opens_append, opens_encode.
Qed.

Lemma skip_ws_comma (x : string) : skip_ws (String "," x) = String "," x.
Proof. reflexivity. Qed.

Lemma skip_ws_colon (x : string) :
  skip_ws (": " +:+ x) = String ":" (String " " x).
Proof. reflexivity. Qed.

Lemma skip_ws_space (x : string) : skip_ws (String " " x) = skip_ws x.
Proof. reflexivity. Qed.

Lemma comma_append (x : string) : "," +:+ x = String "," x.
Proof. reflexivity. Qed.

Lemma parse_items_encode (level outer : nat) (items : list json) :
  Forall decodes items → items ≠ [] →
  ∀ rest fuel,
    (String.length (Str.join ("," +:+ newline_indent level)
                      (List.map (encode level) items)) + 1 ≤ fuel)%nat →
    parse_items fuel
      (Str.join ("," +:+ newline_indent level) (List.map (encode level) items)
       +:+ newline_indent outer +:+ String "]" rest)
    = Some (items, rest).
Proof.
induction 1 as [|v vs Hv Hvs IH]; [done|]. intros _ rest fuel Hfuel.
destruct fuel as [|f]; [lia|]. rewrite parse_items_step.
destruct vs as [|v2 vs].
- cbn [List.map Str.join] in *.
  rewrite (Hv level _ f (closes_newline_indent _ _)) by lia.
  rewrite skip_ws_newline_indent. reflexivity.
- cbn [List.map] in *. rewrite join_cons2 in Hfuel |- *.
  rewrite !length_append in Hfuel. cbn [String.length] in Hfuel.
  pose proof (length_newline_indent level).
  rewrite !append_assoc.
  rewrite comma_append.
  rewrite (Hv level _ f) by (by left || lia).
  rewrite skip_ws_comma. cbv beta iota. rewrite Ascii.eqb_refl.
  rewrite skip_ws_newline_indent, skip_ws_opens
    by (apply opens_append, (opens_join _ level v2 vs)).
  rewrite IH by (done || lia). reflexivity.
Qed.

Definition encode_member (level : nat) (kv : string * json) : string :=
  encode_string kv.1 +:+ ": " +:+ encode level kv.2.

Lemma opens_join_members (sep : string) (level : nat)
    (m : string * json) (ms : list (string * json)) :
  opens (Str.join sep (List.map (encode_member level) (m :: ms))).
Proof.
destruct ms as [|m2 ms]; by hnf.
Qed.

Lemma parse_members_encode (level outer : nat) (members : list (string * json)) :
  Forall (λ kv, decodes kv.2) members → members ≠ [] →
  ∀ rest fuel,
    (String.length (Str.join ("," +:+ newline_indent level)
                      (List.map (encode_member level) members)) + 1 ≤ fuel)%nat →
    parse_members fuel
      (Str.join ("," +:+ newline_indent level)
         (List.map (encode_member level) members)
       +:+ newline_indent outer +:+ String "}" rest)
    = Some (members, rest).
Proof.
induction 1 as [|[k v] ms Hv Hms IH]; [done|]. intros _ rest fuel Hfuel.
destruct fuel as [|f]; [lia|]. cbn [snd] in Hv.
destruct ms as [|m2 ms].
- cbn [List.map Str.join] in *. unfold encode_member in *. cbn [fst snd] in *.
  rewrite !length_append in Hfuel. cbn [String.length] in Hfuel.
  rewrite !append_assoc.
  destruct (read_string_encode k
              (": " +:+ encode level v +:+ newline_indent outer +:+ String "}" rest))
    as (tl & -> & Hk).
  rewrite parse_members_step, Hk.
  rewrite skip_ws_colon. cbv beta iota. rewrite Ascii.eqb_refl, skip_ws_space.
  rewrite skip_ws_opens by apply opens_append, opens_encode.
  rewrite (Hv level _ f (closes_newline_indent _ _)) by lia.
  rewrite skip_ws_newline_indent. reflexivity.
- cbn [List.map] in *. rewrite join_cons2 in Hfuel |- *.
  unfold encode_member at 1 in Hfuel. unfold encode_member at 1.
  cbn [fst snd] in *.
  rewrite !length_append in Hfuel. cbn [String.length] in Hfuel.
  pose proof (length_newline_indent level).
  rewrite !append_assoc.
  match goal with
  | |- parse_members _ (encode_string k +:+ ?x) = _ =>
      destruct (read_string_encode k x) as (tl & -> & Hk)
  end.
  rewrite parse_members_step, Hk.
  rewrite skip_ws_colon. cbv beta iota. rewrite Ascii.eqb_refl, skip_ws_space.
  rewrite skip_ws_opens by apply opens_append, opens_encode.
  rewrite comma_append.
  rewrite (Hv level _ f) by (by left || lia).
  rewrite skip_ws_comma. cbv beta iota. rewrite Ascii.eqb_refl.
  rewrite skip_ws_newline_indent, skip_ws_opens
    by (apply opens_append, (opens_join_members _ level m2 ms)).
  rewrite IH by (done || lia). reflexivity.
Qed.

Lemma encode_list_cons (level : nat) (v : json) (vs : list json) :
  encode level (JList (v :: vs)) =
  "[" +:+ newline_indent (S level)
  +:+ Str.join ("," +:+ newline_indent (S level))
        (List.map (encode (S level)) (v :: vs))
  +:+ newline_indent level +:+ "]".
Proof. reflexivity. Qed.

Lemma encode_dict_cons (level : nat) (m : string * json)
    (ms : list (string * json)) :
  encode level (JDict (m :: ms)) =
  "{" +:+ newline_indent (S level)
  +:+ Str.join ("," +:+ newline_indent (S level))
        (List.map (encode_member (S level)) (m :: ms))
  +:+ newline_indent level +:+ "}".
Proof. reflexivity. Qed.

Theorem encode_decodes (v : json) : decodes v.
Proof.
induction v as [|b|z|s|items IH|members IH] using json_nested_ind;
  intros level rest fuel Hc Hfuel.
- destruct fuel as [|f]; [cbn in Hfuel; lia|]. reflexivity.
- destruct fuel as [|f]; [destruct b; cbn in Hfuel; lia|]. by destruct b.
- destruct fuel as [|f].
  { pose proof (opens_number z) as Ho. cbn [encode] in Hfuel.
    destruct (pretty z); [done|cbn in Hfuel; lia]. }
  cbn [encode]. apply parse_value_number; [|by apply read_number_pretty].
  destruct z as [|p|p].
  + exists "0"%char, rest. split; [done|by left].
  + destruct (pretty_N_head (N.pos p) rest) as (a & tl & E & Hd).
    exists a, tl. split; [exact E|by left].
  + exists "-"%char, (pretty (N.pos p) +:+ rest). split; [done|by right].
- destruct fuel as [|f].
  { cbn [encode] in Hfuel. unfold encode_string in Hfuel.
    rewrite !length_append in Hfuel. cbn [String.length Str.DQ] in Hfuel. lia. }
  cbn [encode].
  destruct (read_string_encode s rest) as (tl & -> & Hs).
  by rewrite parse_value_string, Hs.
- destruct items as [|v vs].
  { destruct fuel as [|f]; [cbn in Hfuel; lia|]. reflexivity. }
  rewrite encode_list_cons in Hfuel |- *.
  rewrite !length_append in Hfuel. cbn [String.length] in Hfuel.
  pose proof (length_newline_indent (S level)).
  pose proof (length_newline_indent level).
  destruct fuel as [|f]; [lia|].
  rewrite !append_assoc.
  change ("[" +:+ ?x) with (String "[" x).
  change ("]" +:+ rest) with (String "]" rest).
  rewrite parse_value_list;
    rewrite skip_ws_newline_indent, skip_ws_opens
      by (apply opens_append, opens_join);
    [|apply opens_append, opens_join].
  rewrite parse_items_encode by (done || lia). reflexivity.
- destruct members as [|m ms].
  { destruct fuel as [|f]; [cbn in Hfuel; lia|]. reflexivity. }
  rewrite encode_dict_cons in Hfuel |- *.
  rewrite !length_append in Hfuel. cbn [String.length] in Hfuel.
  pose proof (length_newline_indent (S level)).
  pose proof (length_newline_indent level).
  destruct fuel as [|f]; [lia|].
  rewrite !append_assoc.
  change ("{" +:+ ?x) with (String "{" x).
  change ("}" +:+ rest) with (String "}" rest).
  rewrite parse_value_dict;
    rewrite skip_ws_newline_indent, skip_ws_opens
      by (apply opens_append, opens_join_members);
    [|apply opens_append, opens_join_members].
  rewrite parse_members_encode by (done || lia). reflexivity.
Qed.

(** what [json.dumps] writes, [json.loads] reads back *)
Theorem loads_dumps (v : json) : loads (dumps v) = Some v.
Proof.
unfold loads, dumps.
rewrite skip_ws_opens by apply opens_encode.
rewrite <- (append_nil_r (encode 0%nat v)) at 2.
rewrite (encode_decodes v 0%nat "" _ I) by lia.
reflexivity.
Qed.

End JsonFacts.

(** ** The file system calls *)

Module FSFacts.

Import FS.

Lemma split_last_snoc (d : list string) (n : string) :
  split_last (d ++ [n]) = Some (d, n).
Proof.
  unfold split_last. rewrite List.rev_app_distr. simpl.
  by rewrite List.rev_involutive.
Qed.

Lemma split_last_inv (p d : list string) (n : string) :
  split_last p = Some (d, n) → p = d ++ [n].
Proof.
  unfold split_last. destruct (List.rev p) eqn:E; [done|].
  intros [= <- <-]. apply (f_equal (@List.rev string)) in E.
  by rewrite List.rev_involutive in E.
Qed.

Lemma walk_app (t : gmap (list string) node) (cs1 cs2 cur : list string) :
  walk t cur (cs1 ++ cs2) =
  match walk t cur cs1 with
  | inl e => inl e
  | inr q => walk t q cs2
  end.
Proof.
  revert cur. induction cs1 as [|c cs1 IH]; intros cur; simpl; [done|].
  destruct (t !! cur) as [[m|? ?]|]; auto.
Qed.

(** every directory of [t] is still one, with the same mode, in [t'] *)
Definition dirs_kept (t t' : gmap (list string) node) : Prop :=
  ∀ p m, t !! p = Some (Dir m) → t' !! p = Some (Dir m).


Lemma dirs_kept_trans t1 t2 t3 :
  dirs_kept t1 t2 → dirs_kept t2 t3 → dirs_kept t1 t3.
Proof. intros H1 H2 p m Hp. eauto. Qed.

Lemma dirs_kept_insert t k n :
  (∀ m, t !! k ≠ Some (Dir m)) → dirs_kept t (<[k := n]> t).
Proof.
  intros Hk p m Hp. destruct (decide (k = p)) as [->|Hne].
  - by destruct (Hk m).
  - by rewrite lookup_insert_ne.
Qed.

(** a walk that succeeds only meets directories, so it is unchanged
    when directories are kept *)
Lemma walk_kept t t' cs cur q :
  dirs_kept t t' → walk t cur cs = inr q → walk t' cur cs = inr q.
Proof.
  intros Hk. revert cur. induction cs as [|c cs IH]; intros cur; simpl; [done|].
  destruct (t !! cur) as [[m|? ?]|] eqn:E; try done.
  rewrite (Hk _ _ E). apply IH.
Qed.

Lemma lookup_parent_kept t t' d dir m :
  dirs_kept t t' → lookup_parent t d = inr (dir, m) →
  lookup_parent t' d = inr (dir, m).
Proof.
  unfold lookup_parent. intros Hk.
  destruct (walk t [] d) as [e|q] eqn:W; [done|].
  rewrite (walk_kept _ _ _ _ _ Hk W).
  destruct (t !! q) as [[m'|? ?]|] eqn:E; try done.
  intros [= <- <-]. by rewrite (Hk _ _ E).
Qed.

(** a successful [os.mkdir]: the parent is a writable directory, the
    name is new, and one directory is added *)
Lemma os_mkdir_inv t p t' :
  os_mkdir t p = inr t' →
  ∃ d n dir m,
    p = d ++ [n] ∧ lookup_parent t d = inr (dir, m) ∧
    is_dot_dot n = false ∧ t !! (dir ++ [n]) = None ∧
    writable m = true ∧ t' = <[dir ++ [n] := Dir mode_0o755]> t.
Proof.
  unfold os_mkdir. destruct (split_last p) as [[d n]|] eqn:S; [|done].
  apply split_last_inv in S.
  destruct (lookup_parent t d) as [e|[dir m]] eqn:L; [done|].
  destruct (is_dot_dot n) eqn:Dd; [done|].
  destruct (t !! (dir ++ [n])) eqn:E; [done|].
  destruct (writable m) eqn:Wm; [|done].
  intros [= <-]. by exists d, n, dir, m.
Qed.



Lemma mkdir_parents_rev_eq t rp ok :
  mkdir_parents_rev t rp ok =
  match os_mkdir t (List.rev rp) with
  | inr t' => inr t'
  | inl ENOENT =>
      match rp with
      | [] => inl (ENOENT, [])
      | _ :: rparent =>
          match mkdir_parents_rev t rparent true with
          | inl e => inl e
          | inr t1 => mkdir t1 (List.rev rp) ok
          end
      end
  | inl e => if ok && is_dir t (List.rev rp) then inr t else inl (e, List.rev rp)
  end.
Proof. by destruct rp. Qed.



Lemma walk_snoc t h n dir m :
  walk t [] h = inr dir → t !! dir = Some (Dir m) → is_dot_dot n = false →
  walk t [] (h ++ [n]) = inr (dir ++ [n]).
Proof.
  intros W D N. rewrite walk_app, W. simpl. by rewrite D, N.
Qed.

Lemma lookup_parent_inv t d dir m :
  lookup_parent t d = inr (dir, m) →
  walk t [] d = inr dir ∧ t !! dir = Some (Dir m).
Proof.
  unfold lookup_parent. destruct (walk t [] d) as [e|q]; [done|].
  destruct (t !! q) as [[m'|? ?]|] eqn:E; try done. by intros [= <- <-].
Qed.


(** a successful write: the directory of the file exists, and the file
    is either new, with mode 0644 in a writable directory, or an
    existing writable file that keeps its mode *)
Lemma write_file_inv t h n c t' :
  is_dot_dot n = false →
  write_file t (h ++ [n]) c = inr t' →
  ∃ dir dm fm,
    lookup_parent t h = inr (dir, dm) ∧
    t' = <[dir ++ [n] := File c fm]> t ∧
    writable fm = true ∧
    ((t !! (dir ++ [n]) = None ∧ fm = mode_0o644 ∧ writable dm = true)
     ∨ ∃ c0, t !! (dir ++ [n]) = Some (File c0 fm)).
Proof.
  intros N. unfold write_file. rewrite split_last_snoc.
  destruct (lookup_parent t h) as [e|[dir dm]] eqn:L; [done|].
  rewrite N. destruct (t !! (dir ++ [n])) as [[m|c0 fm]|] eqn:E; [done| |].
  - destruct (writable fm) eqn:Wf; [|done]. intros [= <-].
    exists dir, dm, fm. eauto 10.
  - destruct (writable dm) eqn:Wd; [|done]. intros [= <-].
    exists dir, dm, mode_0o644. split_and!; auto.
Qed.

Lemma write_file_existing t h n c dir dm c0 fm :
  is_dot_dot n = false →
  lookup_parent t h = inr (dir, dm) →
  t !! (dir ++ [n]) = Some (File c0 fm) → writable fm = true →
  write_file t (h ++ [n]) c = inr (<[dir ++ [n] := File c fm]> t).
Proof.
  intros N L E Wf. unfold write_file.
  by rewrite split_last_snoc, L, N, E, Wf.
Qed.

Lemma write_file_new t h n c dir dm :
  is_dot_dot n = false →
  lookup_parent t h = inr (dir, dm) →
  t !! (dir ++ [n]) = None → writable dm = true →
  write_file t (h ++ [n]) c = inr (<[dir ++ [n] := File c mode_0o644]> t).
Proof.
  intros N L E Wd. unfold write_file.
  by rewrite split_last_snoc, L, N, E, Wd.
Qed.

(** a failing write leaves no trace: [write_file] returns a new file
    system only when it succeeds *)
Lemma write_file_kept t h n c t' :
  is_dot_dot n = false →
  write_file t (h ++ [n]) c = inr t' → dirs_kept t t'.
Proof.
  intros N (dir & dm & fm & _ & -> & _ & [(E & _)|(c0 & E)])%write_file_inv;
    [| |done]; apply dirs_kept_insert; intros m; by rewrite E.
Qed.

Lemma chmod_file t h n dir dm c m0 mode :
  is_dot_dot n = false →
  lookup_parent t h = inr (dir, dm) →
  t !! (dir ++ [n]) = Some (File c m0) →
  chmod t (h ++ [n]) mode = inr (<[dir ++ [n] := File c mode]> t).
Proof.
  intros N [W D]%lookup_parent_inv E. unfold chmod.
  by rewrite (walk_snoc _ _ _ _ _ W D N), E.
Qed.

Lemma stat_file t h n dir dm c m :
  is_dot_dot n = false →
  lookup_parent t h = inr (dir, dm) →
  t !! (dir ++ [n]) = Some (File c m) →
  stat t (h ++ [n]) = inr (File c m).
Proof.
  intros N [W D]%lookup_parent_inv E. unfold stat.
  by rewrite (walk_snoc _ _ _ _ _ W D N), E.
Qed.



















(** a path without [".."] parts *)
Definition plain (cs : list string) : Prop :=
  Forall (λ c, is_dot_dot c = false) cs.

(** the kernel leaves such a path as it is *)
Lemma walk_plain t cs : ∀ cur q,
  plain cs → walk t cur cs = inr q → q = cur ++ cs.
Proof.
induction cs as [|c cs IH]; intros cur q Hp; simpl.
- intros [= <-]. by rewrite app_nil_r.
- apply Forall_cons in Hp as [Hc Hp]. rewrite Hc.
  destruct (t !! cur) as [[m|? ?]|]; try done.
  intros ->%IH; [|done]. by rewrite <- app_assoc.
Qed.

Lemma normalize_plain cs : ∀ stack,
  plain stack → plain (Path.normalize stack cs).
Proof.
induction cs as [|c cs IH]; intros stack Hs; simpl.
- unfold plain in *. rewrite List.Forall_forall in *. intros x Hx.
  apply Hs. by apply List.in_rev.
- fold (is_dot_dot c). destruct (is_dot_dot c) eqn:Hc.
  + apply IH. destruct stack as [|s stack]; [done|].
    by apply Forall_cons in Hs as [_ Hs].
  + apply IH. by apply Forall_cons.
Qed.

Lemma resolve_plain cwd s : plain cwd → plain (Path.resolve cwd s).
Proof.
intros Hc. unfold Path.resolve. destruct (Path.is_absolute s).
- apply normalize_plain. constructor.
- apply normalize_plain. unfold plain in *.
  rewrite List.Forall_forall in *. intros x Hx. apply Hc.
  by apply List.in_rev in Hx.
Qed.

(** *** Well-formed file systems and new directory chains *)

















(** *** What the directory calls add *)

(** [t'] is [t] with some new directories of mode 0755, and nothing
    else is different *)
Definition only_adds_dirs (t t' : gmap (list string) node) : Prop :=
  ∀ p, t' !! p = t !! p ∨ (t !! p = None ∧ t' !! p = Some (Dir mode_0o755)).

Lemma only_adds_dirs_refl t : only_adds_dirs t t.
Proof. intros p. by left. Qed.

Lemma only_adds_dirs_trans t1 t2 t3 :
  only_adds_dirs t1 t2 → only_adds_dirs t2 t3 → only_adds_dirs t1 t3.
Proof.
intros H12 H23 p. destruct (H23 p) as [E23|[N2 D3]], (H12 p) as [E12|[N1 D2]].
- left. congruence.
- right. split; [done|congruence].
- right. split; [congruence|done].
- congruence.
Qed.

Lemma os_mkdir_only_adds t p t' : os_mkdir t p = inr t' → only_adds_dirs t t'.
Proof.
intros (d & n & dir & m & _ & _ & _ & Hnone & _ & ->)%os_mkdir_inv q.
destruct (decide (dir ++ [n] = q)) as [<-|Hne].
- right. by rewrite lookup_insert_eq.
- left. by rewrite lookup_insert_ne.
Qed.

Lemma mkdir_only_adds t p ok t' : mkdir t p ok = inr t' → only_adds_dirs t t'.
Proof.
unfold mkdir. destruct (os_mkdir t p) as [e|t1] eqn:E.
- destruct e; try done;
    (destruct (ok && is_dir t p); [|done]); intros [= <-];
    apply only_adds_dirs_refl.
- intros [= <-]. by eapply os_mkdir_only_adds.
Qed.

Lemma mkdir_parents_rev_only_adds rp : ∀ t ok t',
  mkdir_parents_rev t rp ok = inr t' → only_adds_dirs t t'.
Proof.
induction rp as [|c rp IH]; intros t ok t'; rewrite mkdir_parents_rev_eq;
  (destruct (os_mkdir t _) as [e|t1] eqn:E;
   [|intros [= <-]; by eapply os_mkdir_only_adds]);
  destruct e;
  try ((destruct (ok && is_dir t _); [|done]);
       intros [= <-]; apply only_adds_dirs_refl).
- done.
- destruct (mkdir_parents_rev t rp true) as [e1|t1] eqn:E1; [done|].
  intros Hm. eapply only_adds_dirs_trans; [by eapply IH|by eapply mkdir_only_adds].
Qed.

(** [mkdir(parents=True)] adds directories of mode 0755 and changes
    nothing that was there *)
Lemma mkdir_parents_only_adds t p ok t' :
  mkdir_parents t p ok = inr t' → only_adds_dirs t t'.
Proof. apply mkdir_parents_rev_only_adds. Qed.

End FSFacts.

(** ** The programs *)

Module PyFacts.

Import Py.

(** an outcome together with the world it leaves *)
Lemma with_final_world {A} (x : result A * world) (r : result A) :
  fst x = r → x = (r, snd x).
Proof. destruct x as [r' w']. by intros <-. Qed.

End PyFacts.

Module HarnessFacts.

Import FS FSFacts Harness.

Definition feature_list_json : string := "feature_list.json".
Definition progress_txt : string := "progress.txt".
Definition init_sh : string := "init.sh".

Definition created_line (p : list string) : string :=
  "✅ Created " +:+ Path.to_string p.

(** [create_feature_list] reads the clock twice and then makes one
    write, whose outcome is the outcome of the call *)
Lemma create_feature_list_eq name h desc w :
  create_feature_list name h desc w =
  let c := Json.dumps (feature_list name desc
             (Datetime.isoformat (Py.clock w (Py.ticks w)))
             (Datetime.isoformat (Py.clock w (S (Py.ticks w))))) in
  let p := h ++ [feature_list_json] in
  match write_file (Py.fs w) p c with
  | inr t =>
      (Py.Ok tt, Py.mkWorld t (Py.cwd w) (Py.clock w) (S (S (Py.ticks w)))
                   (Py.stdout w ++ [created_line p]))
  | inl e =>
      (Py.Raise (Py.OSError e p),
       Py.mkWorld (Py.fs w) (Py.cwd w) (Py.clock w) (S (S (Py.ticks w)))
         (Py.stdout w))
  end.
Proof.
  unfold create_feature_list, Py.bind, Py.now, Py.syscall, Py.print, Py.set_fs.
  cbn [Py.fs Py.cwd Py.clock Py.ticks Py.stdout].
  change (Path.joinpath h "feature_list.json") with (h ++ [feature_list_json]).
  cbv zeta. by destruct (write_file _ _ _).
Qed.

Lemma create_progress_file_eq name h desc w :
  create_progress_file name h desc w =
  let c := progress_content name desc
             (Datetime.strftime_minutes (Py.clock w (Py.ticks w)))
             (Datetime.strftime_minutes (Py.clock w (S (Py.ticks w)))) in
  let p := h ++ [progress_txt] in
  match write_file (Py.fs w) p c with
  | inr t =>
      (Py.Ok tt, Py.mkWorld t (Py.cwd w) (Py.clock w) (S (S (Py.ticks w)))
                   (Py.stdout w ++ [created_line p]))
  | inl e =>
      (Py.Raise (Py.OSError e p),
       Py.mkWorld (Py.fs w) (Py.cwd w) (Py.clock w) (S (S (Py.ticks w)))
         (Py.stdout w))
  end.
Proof.
  unfold create_progress_file, Py.bind, Py.now, Py.syscall, Py.print, Py.set_fs.
  cbn [Py.fs Py.cwd Py.clock Py.ticks Py.stdout].
  change (Path.joinpath h "progress.txt") with (h ++ [progress_txt]).
  cbv zeta. by destruct (write_file _ _ _).
Qed.

Lemma create_init_script_eq h w :
  create_init_script h w =
  let p := h ++ [init_sh] in
  match write_file (Py.fs w) p init_script_content with
  | inr t =>
      match chmod t p mode_0o755 with
      | inr t' =>
          (Py.Ok tt, Py.mkWorld t' (Py.cwd w) (Py.clock w) (Py.ticks w)
                       (Py.stdout w ++ [created_line p]))
      | inl e =>
          (Py.Raise (Py.OSError e p),
           Py.mkWorld t (Py.cwd w) (Py.clock w) (Py.ticks w) (Py.stdout w))
      end
  | inl e => (Py.Raise (Py.OSError e p), w)
  end.
Proof.
  unfold create_init_script, Py.bind, Py.syscall, Py.print, Py.set_fs.
  change (Path.joinpath h "init.sh") with (h ++ [init_sh]).
  cbv zeta. destruct (write_file _ _ _) as [e|t]; [done|].
  cbn [Py.fs Py.cwd Py.clock Py.ticks Py.stdout].
  by destruct (chmod _ _ _).
Qed.

End HarnessFacts.

Module MainFacts.

Import FS FSFacts Harness HarnessFacts Main.

Definition project_created_line (p : list string) : string :=
  "📁 Created project directory: " +:+ Path.to_string p.

Definition heading (p : list string) (description : string) : list string :=
  [Str.NL +:+ "🔧 Initializing harness for: " +:+ Path.name p;
   "   Description: " +:+ description +:+ Str.NL].

(** [prepare] as the outcome of its steps: the arguments are looked at
    first, then the project directory, then the harness directory *)
Lemma prepare_eq argv w :
  prepare argv w =
  match Argparse.scan argv [] false with
  | inl code => (Py.Raise (Py.SystemExit code), w)
  | inr args =>
      let P := Path.resolve (Py.cwd w) (Argparse.project_path args) in
      let H := harness_dir_of P (Argparse.feature_name args) in
      if exists_ (Py.fs w) P then
        match mkdir_parents (Py.fs w) H true with
        | inl (e, p) => (Py.Raise (Py.OSError e p), w)
        | inr t2 =>
            (Py.Ok (args, P, H),
             Py.mkWorld t2 (Py.cwd w) (Py.clock w) (Py.ticks w)
               (Py.stdout w ++ heading P (Argparse.description args)))
        end
      else
        match mkdir_parents (Py.fs w) P false with
        | inl (e, p) => (Py.Raise (Py.OSError e p), w)
        | inr t1 =>
            match mkdir_parents t1 H true with
            | inl (e, p) =>
                (Py.Raise (Py.OSError e p),
                 Py.mkWorld t1 (Py.cwd w) (Py.clock w) (Py.ticks w)
                   (Py.stdout w ++ [project_created_line P]))
            | inr t2 =>
                (Py.Ok (args, P, H),
                 Py.mkWorld t2 (Py.cwd w) (Py.clock w) (Py.ticks w)
                   ((Py.stdout w ++ [project_created_line P])
                    ++ heading P (Argparse.description args)))
            end
        end
  end.
Proof.
  destruct w as [t cw ck tk out].
  unfold prepare, Argparse.parse_args, Py.bind.
  destruct (Argparse.scan argv [] false) as [code|args]; [done|].
  cbv beta iota zeta delta [Py.ret Py.getcwd Py.query Py.fs Py.cwd].
  destruct (exists_ t _).
  - cbv beta iota zeta delta
      [Py.ret Py.pathcall Py.print Py.set_fs Py.fs Py.cwd Py.clock Py.ticks Py.stdout].
    destruct (mkdir_parents t _ true) as [[e p]|t2]; [done|].
    unfold heading. by rewrite <- app_assoc.
  - cbv beta iota zeta delta
      [Py.ret Py.pathcall Py.print Py.set_fs Py.fs Py.cwd Py.clock Py.ticks Py.stdout].
    destruct (mkdir_parents t _ false) as [[e p]|t1]; [done|].
    destruct (mkdir_parents t1 _ true) as [[e p]|t2]; [done|].
    unfold heading, project_created_line. by rewrite <- (app_assoc _ [_] [_]).
Qed.

Definition summary_lines (args : Argparse.namespace) (p : list string)
    : list string :=
  [Str.NL +:+ "✅ Harness initialization complete!";
   Str.NL +:+ "Next steps:";
   "  1. cd " +:+ Path.to_string p;
   "  2. Edit long_running/" +:+ Argparse.feature_name args
     +:+ "/feature_list.json to add your features";
   "  3. git init && git add . && git commit -m 'Initial setup'";
   "  4. Start implementing features one at a time"].

Lemma summary_eq args p w :
  summary args p w =
  (Py.Ok tt, Py.mkWorld (Py.fs w) (Py.cwd w) (Py.clock w) (Py.ticks w)
               (Py.stdout w ++ summary_lines args p)).
Proof.
  unfold summary, Py.bind, Py.print, summary_lines.
  cbv beta iota zeta delta [Py.fs Py.cwd Py.clock Py.ticks Py.stdout].
  by rewrite <- !app_assoc.
Qed.

(** [main] stops at the first step that raises *)
Lemma main_eq argv w :
  main argv w =
  match prepare argv w with
  | (Py.Raise x, w1) => (Py.Raise x, w1)
  | (Py.Ok (args, P, H), w1) =>
      match create_feature_list (Path.name P) H (Argparse.description args) w1 with
      | (Py.Raise x, w2) => (Py.Raise x, w2)
      | (Py.Ok _, w2) =>
          match create_progress_file (Path.name P) H (Argparse.description args) w2 with
          | (Py.Raise x, w3) => (Py.Raise x, w3)
          | (Py.Ok _, w3) =>
              match create_init_script H w3 with
              | (Py.Raise x, w4) => (Py.Raise x, w4)
              | (Py.Ok _, w4) => summary args P w4
              end
          end
      end
  end.
Proof.
  unfold main, Py.bind.
  destruct (prepare argv w) as [[[[args P] H]|x] w1]; [|done].
  destruct (create_feature_list _ _ _ w1) as [[[]|x] w2]; [|done].
  destruct (create_progress_file _ _ _ w2) as [[[]|x] w3]; [|done].
  by destruct (create_init_script _ w3) as [[[]|x] w4].
Qed.

Lemma not_dot_dot_feature_list : is_dot_dot feature_list_json = false.
Proof. reflexivity. Qed.
Lemma not_dot_dot_progress : is_dot_dot progress_txt = false.
Proof. reflexivity. Qed.
Lemma not_dot_dot_init : is_dot_dot init_sh = false.
Proof. reflexivity. Qed.

Lemma snoc_ne (dir : list string) (a b : string) :
  a ≠ b → dir ++ [a] ≠ dir ++ [b].
Proof. intros Hne [= ->]%app_inv_head. done. Qed.

(** the contents the first two files get in a run that starts with
    the clock at reading [k] *)
Definition feature_list_content (w : Py.world) (name desc : string) : string :=
  Json.dumps (feature_list name desc
    (Datetime.isoformat (Py.clock w (Py.ticks w)))
    (Datetime.isoformat (Py.clock w (S (Py.ticks w))))).

Definition progress_file_content (w : Py.world) (name desc : string) : string :=
  progress_content name desc
    (Datetime.strftime_minutes (Py.clock w (S (S (Py.ticks w)))))
    (Datetime.strftime_minutes (Py.clock w (S (S (S (Py.ticks w)))))).

(** the file system a complete run leaves: the one [prepare] left,
    with the three files in the directory [dir] the harness path leads
    to *)
Definition installed (t : gmap (list string) node) (dir : list string)
    (c1 : string) (m1 : Z) (c2 : string) (m2 : Z) : gmap (list string) node :=
  <[dir ++ [init_sh] := File init_script_content mode_0o755]>
    (<[dir ++ [progress_txt] := File c2 m2]>
       (<[dir ++ [feature_list_json] := File c1 m1]> t)).

(** where a file of the harness directory comes from: it is new, or an
    existing writable file was overwritten *)
Definition overwrites (t : gmap (list string) node) (k : list string)
    (dm m : Z) : Prop :=
  (t !! k = None ∧ m = mode_0o644 ∧ writable dm = true)
  ∨ (∃ c0, t !! k = Some (File c0 m) ∧ writable m = true).

(** the world after the three files have been made from world [w1] *)
Definition after_files (w1 : Py.world) (name desc : string)
    (H dir : list string) (m1 m2 : Z) : Py.world :=
  Py.mkWorld
    (installed (Py.fs w1) dir (feature_list_content w1 name desc) m1
                              (progress_file_content w1 name desc) m2)
    (Py.cwd w1) (Py.clock w1) (4 + Py.ticks w1)%nat
    (Py.stdout w1 ++ [created_line (H ++ [feature_list_json]);
                      created_line (H ++ [progress_txt]);
                      created_line (H ++ [init_sh])]).

Lemma lookup_parent_installed t H dir dm c1 m1 c2 m2 :
  lookup_parent t H = inr (dir, dm) →
  (∀ m, t !! (dir ++ [feature_list_json]) ≠ Some (Dir m)) →
  (∀ m, t !! (dir ++ [progress_txt]) ≠ Some (Dir m)) →
  (∀ m, t !! (dir ++ [init_sh]) ≠ Some (Dir m)) →
  lookup_parent (installed t dir c1 m1 c2 m2) H = inr (dir, dm).
Proof.
  intros L N1 N2 N3. eapply lookup_parent_kept; [|exact L].
  unfold installed.
  eapply dirs_kept_trans; [|eapply dirs_kept_trans];
    [apply dirs_kept_insert, N1| |]; apply dirs_kept_insert; intros m;
    rewrite ?lookup_insert_ne by (by apply snoc_ne); auto.
Qed.

Lemma overwrites_not_dir t k dm m :
  overwrites t k dm m → ∀ m', t !! k ≠ Some (Dir m').
Proof. intros [(E & _)|(c0 & E & _)] m'; by rewrite E. Qed.


Lemma write_file_overwrites t H n c dir dm m :
  is_dot_dot n = false →
  lookup_parent t H = inr (dir, dm) →
  overwrites t (dir ++ [n]) dm m →
  write_file t (H ++ [n]) c = inr (<[dir ++ [n] := File c m]> t).
Proof.
  intros N L [(E & -> & Wd)|(c0 & E & Wm)].
  - by apply write_file_new with dm.
  - by apply write_file_existing with dm c0.
Qed.

(** the three calls of [main] that make the files, when they all
    succeed *)
Lemma create_files_inv name H desc w1 w2 w3 w4 :
  create_feature_list name H desc w1 = (Py.Ok tt, w2) →
  create_progress_file name H desc w2 = (Py.Ok tt, w3) →
  create_init_script H w3 = (Py.Ok tt, w4) →
  ∃ dir dm m1 m2 m3,
    lookup_parent (Py.fs w1) H = inr (dir, dm) ∧
    overwrites (Py.fs w1) (dir ++ [feature_list_json]) dm m1 ∧
    overwrites (Py.fs w1) (dir ++ [progress_txt]) dm m2 ∧
    overwrites (Py.fs w1) (dir ++ [init_sh]) dm m3 ∧
    w2 = Py.mkWorld
           (<[dir ++ [feature_list_json] :=
                File (feature_list_content w1 name desc) m1]> (Py.fs w1))
           (Py.cwd w1) (Py.clock w1) (2 + Py.ticks w1)%nat
           (Py.stdout w1 ++ [created_line (H ++ [feature_list_json])]) ∧
    w4 = after_files w1 name desc H dir m1 m2.
Proof.
  rewrite create_feature_list_eq. cbv zeta.
  destruct (write_file (Py.fs w1) _ _) as [e|t2] eqn:W1; [done|].
  intros [= <-].
  rewrite create_progress_file_eq. cbv zeta.
  cbn [Py.fs Py.cwd Py.clock Py.ticks Py.stdout].
  destruct (write_file t2 _ _) as [e|t3] eqn:W2; [done|].
  intros [= <-].
  rewrite create_init_script_eq. cbv zeta.
  cbn [Py.fs Py.cwd Py.clock Py.ticks Py.stdout].
  destruct (write_file t3 _ _) as [e|t4] eqn:W3; [done|].
  destruct (chmod t4 _ _) as [e|t5] eqn:C4; [done|].
  intros [= <-].
  pose proof (write_file_kept _ _ _ _ _ not_dot_dot_feature_list W1) as K1.
  pose proof (write_file_kept _ _ _ _ _ not_dot_dot_progress W2) as K2.
  pose proof (write_file_kept _ _ _ _ _ not_dot_dot_init W3) as K3.
  apply (write_file_inv _ _ _ _ _ not_dot_dot_feature_list) in W1
    as (dir & dm & m1 & L1 & -> & Wm1 & O1).
  apply (write_file_inv _ _ _ _ _ not_dot_dot_progress) in W2
    as (dir2 & dm2 & m2 & L2 & -> & Wm2 & O2).
  rewrite (lookup_parent_kept _ _ _ _ _ K1 L1) in L2. injection L2 as <- <-.
  apply (write_file_inv _ _ _ _ _ not_dot_dot_init) in W3
    as (dir3 & dm3 & m3 & L3 & -> & Wm3 & O3).
  rewrite (lookup_parent_kept _ _ _ _ _ (dirs_kept_trans _ _ _ K1 K2) L1) in L3.
  injection L3 as <- <-.
  assert (lookup_parent
            (<[dir ++ [init_sh] := File init_script_content m3]>
               (<[dir ++ [progress_txt] :=
                    File (progress_file_content w1 name desc) m2]>
                  (<[dir ++ [feature_list_json] :=
                       File (feature_list_content w1 name desc) m1]> (Py.fs w1))))
            H = inr (dir, dm)) as L4.
  { eapply lookup_parent_kept; [|exact L1].
    eauto using dirs_kept_trans. }
  erewrite chmod_file in C4; [|reflexivity|exact L4|apply lookup_insert_eq].
  injection C4 as <-.
  exists dir, dm, m1, m2, m3. split_and!; try done.
  - unfold overwrites. destruct O1 as [?|[c0 ?]]; eauto.
  - unfold overwrites.
    rewrite lookup_insert_ne in O2 by (by apply snoc_ne).
    destruct O2 as [?|[c0 ?]]; eauto.
  - unfold overwrites.
    rewrite !lookup_insert_ne in O3 by (by apply snoc_ne).
    destruct O3 as [?|[c0 ?]]; eauto.
  - unfold after_files, installed. rewrite insert_insert_eq.
    by rewrite <- !app_assoc.
Qed.

(** and the other way round: the three calls succeed as soon as each
    file is new in a writable directory or is a writable file *)
Lemma create_files_intro name H desc w1 dir dm m1 m2 m3 :
  lookup_parent (Py.fs w1) H = inr (dir, dm) →
  overwrites (Py.fs w1) (dir ++ [feature_list_json]) dm m1 →
  overwrites (Py.fs w1) (dir ++ [progress_txt]) dm m2 →
  overwrites (Py.fs w1) (dir ++ [init_sh]) dm m3 →
  ∃ w2 w3,
    create_feature_list name H desc w1 = (Py.Ok tt, w2) ∧
    create_progress_file name H desc w2 = (Py.Ok tt, w3) ∧
    create_init_script H w3 = (Py.Ok tt, after_files w1 name desc H dir m1 m2).
Proof.
  intros L O1 O2 O3.
  pose proof (overwrites_not_dir _ _ _ _ O1) as N1.
  pose proof (overwrites_not_dir _ _ _ _ O2) as N2.
  pose proof (overwrites_not_dir _ _ _ _ O3) as N3.
  eexists _, _. split_and!.
  - rewrite create_feature_list_eq. cbv zeta.
    by rewrite (write_file_overwrites _ _ _ _ _ _ _ not_dot_dot_feature_list L O1).
  - rewrite create_progress_file_eq. cbv zeta.
    cbn [Py.fs Py.cwd Py.clock Py.ticks Py.stdout].
    erewrite (write_file_overwrites _ _ _ _ dir dm m2 not_dot_dot_progress);
      [reflexivity| |].
    + eapply lookup_parent_kept; [|exact L]. by apply dirs_kept_insert.
    + destruct O2 as [(E & -> & Wd)|(c0 & E & Wm)]; [left|right; exists c0];
        rewrite lookup_insert_ne by (by apply snoc_ne); auto.
  - rewrite create_init_script_eq. cbv zeta.
    cbn [Py.fs Py.cwd Py.clock Py.ticks Py.stdout].
    assert (lookup_parent
              (<[dir ++ [progress_txt] :=
                   File (progress_file_content w1 name desc) m2]>
                 (<[dir ++ [feature_list_json] :=
                      File (feature_list_content w1 name desc) m1]> (Py.fs w1)))
              H = inr (dir, dm)) as L3.
    { eapply lookup_parent_kept; [|exact L].
      eapply dirs_kept_trans; apply dirs_kept_insert; [done|].
      intros m. rewrite lookup_insert_ne by (by apply snoc_ne). done. }
    erewrite (write_file_overwrites _ _ _ _ dir dm m3 not_dot_dot_init);
      [|exact L3|].
    2:{ destruct O3 as [(E & -> & Wd)|(c0 & E & Wm)]; [left|right; exists c0];
          rewrite !lookup_insert_ne by (by apply snoc_ne); auto. }
    erewrite chmod_file; [|reflexivity| |apply lookup_insert_eq].
    2:{ eapply lookup_parent_kept; [|exact L3]. apply dirs_kept_insert.
        intros m. rewrite !lookup_insert_ne by (by apply snoc_ne). done. }
    unfold after_files, installed. rewrite insert_insert_eq.
    by rewrite <- !app_assoc.
Qed.

(** what the arguments make of the working directory: the project
    path and the harness path *)
Definition project_path_of (w : Py.world) (args : Argparse.namespace)
    : list string :=
  Path.resolve (Py.cwd w) (Argparse.project_path args).

Definition harness_path_of (w : Py.world) (args : Argparse.namespace)
    : list string :=
  harness_dir_of (project_path_of w args) (Argparse.feature_name args).

Lemma prepare_ok_inv argv w args P H w1 :
  prepare argv w = (Py.Ok (args, P, H), w1) →
  Argparse.scan argv [] false = inr args ∧
  P = project_path_of w args ∧ H = harness_path_of w args ∧
  Py.cwd w1 = Py.cwd w ∧ Py.clock w1 = Py.clock w ∧ Py.ticks w1 = Py.ticks w ∧
  ∃ t1, mkdir_parents t1 H true = inr (Py.fs w1) ∧
    ((exists_ (Py.fs w) P = true ∧ t1 = Py.fs w ∧
      Py.stdout w1 = Py.stdout w ++ heading P (Argparse.description args))
     ∨ (exists_ (Py.fs w) P = false ∧
        mkdir_parents (Py.fs w) P false = inr t1 ∧
        Py.stdout w1 = (Py.stdout w ++ [project_created_line P])
                       ++ heading P (Argparse.description args))).
Proof.
  rewrite prepare_eq. unfold harness_path_of, project_path_of.
  destruct (Argparse.scan argv [] false) as [code|args']; [done|]. cbv zeta.
  destruct (exists_ (Py.fs w) _) eqn:Ex.
  - destruct (mkdir_parents (Py.fs w) _ true) as [[e p]|t2] eqn:M2; [done|].
    intros [= <- <- <- <-]. split_and!; try done.
    exists (Py.fs w). split; [done|]. left. done.
  - destruct (mkdir_parents (Py.fs w) _ false) as [[e p]|t1] eqn:M1; [done|].
    destruct (mkdir_parents t1 _ true) as [[e p]|t2] eqn:M2; [done|].
    intros [= <- <- <- <-]. split_and!; try done.
    exists t1. split; [done|]. right. done.
Qed.

(** a complete run, taken apart *)
Lemma main_ok_inv argv w w' :
  main argv w = (Py.Ok tt, w') →
  ∃ args w1 dir dm m1 m2 m3,
    let P := project_path_of w args in
    let H := harness_path_of w args in
    prepare argv w = (Py.Ok (args, P, H), w1) ∧
    lookup_parent (Py.fs w1) H = inr (dir, dm) ∧
    overwrites (Py.fs w1) (dir ++ [feature_list_json]) dm m1 ∧
    overwrites (Py.fs w1) (dir ++ [progress_txt]) dm m2 ∧
    overwrites (Py.fs w1) (dir ++ [init_sh]) dm m3 ∧
    Py.fs w' = installed (Py.fs w1) dir
                 (feature_list_content w (Path.name P) (Argparse.description args)) m1
                 (progress_file_content w (Path.name P) (Argparse.description args)) m2 ∧
    Py.cwd w' = Py.cwd w ∧ Py.clock w' = Py.clock w ∧
    Py.ticks w' = (4 + Py.ticks w)%nat.
Proof.
  rewrite main_eq.
  destruct (prepare argv w) as [[[[args P] H]|x] w1] eqn:Hp; [|done].
  destruct (create_feature_list _ _ _ w1) as [[[]|x] w2] eqn:H1; [|done].
  destruct (create_progress_file _ _ _ w2) as [[[]|x] w3] eqn:H2; [|done].
  destruct (create_init_script _ w3) as [[[]|x] w4] eqn:H3; [|done].
  rewrite summary_eq. intros [= <-].
  destruct (prepare_ok_inv _ _ _ _ _ _ Hp) as (_ & -> & -> & Ec & Ek & Et & _).
  destruct (create_files_inv _ _ _ _ _ _ _ H1 H2 H3)
    as (dir & dm & m1 & m2 & m3 & L & O1 & O2 & O3 & _ & ->).
  exists args, w1, dir, dm, m1, m2, m3. cbv zeta.
  cbn [Py.fs Py.cwd Py.clock Py.ticks Py.stdout after_files].
  unfold feature_list_content, progress_file_content.
  rewrite Ec, Ek, Et. split_and!; done.
Qed.

(** a run is complete as soon as [prepare] returns and the three files
    can be written *)
Lemma main_ok_intro argv w args w1 dir dm m1 m2 m3 :
  let P := project_path_of w args in
  let H := harness_path_of w args in
  prepare argv w = (Py.Ok (args, P, H), w1) →
  lookup_parent (Py.fs w1) H = inr (dir, dm) →
  overwrites (Py.fs w1) (dir ++ [feature_list_json]) dm m1 →
  overwrites (Py.fs w1) (dir ++ [progress_txt]) dm m2 →
  overwrites (Py.fs w1) (dir ++ [init_sh]) dm m3 →
  ∃ w', main argv w = (Py.Ok tt, w') ∧
    Py.fs w' = installed (Py.fs w1) dir
                 (feature_list_content w (Path.name P) (Argparse.description args)) m1
                 (progress_file_content w (Path.name P) (Argparse.description args)) m2 ∧
    Py.stdout w' = (Py.stdout w1 ++ [created_line (H ++ [feature_list_json]);
                                     created_line (H ++ [progress_txt]);
                                     created_line (H ++ [init_sh])])
                   ++ summary_lines args P.
Proof.
  intros P H Hp L O1 O2 O3.
  destruct (create_files_intro (Path.name P) H (Argparse.description args)
              _ _ _ _ _ _ L O1 O2 O3) as (w2 & w3 & H1 & H2 & H3).
  destruct (prepare_ok_inv _ _ _ _ _ _ Hp) as (_ & _ & _ & Ec & Ek & Et & _).
  eexists. rewrite main_eq, Hp, H1, H2, H3, summary_eq.
  split; [reflexivity|].
  cbn [Py.fs Py.cwd Py.clock Py.ticks Py.stdout after_files].
  unfold feature_list_content, progress_file_content.
  by rewrite Ek, Et.
Qed.

(** the three files of a complete run, as [stat] finds them *)
Lemma installed_stat t H dir dm c1 m1 c2 m2 :
  lookup_parent t H = inr (dir, dm) →
  (∀ m, t !! (dir ++ [feature_list_json]) ≠ Some (Dir m)) →
  (∀ m, t !! (dir ++ [progress_txt]) ≠ Some (Dir m)) →
  (∀ m, t !! (dir ++ [init_sh]) ≠ Some (Dir m)) →
  let t' := installed t dir c1 m1 c2 m2 in
  stat t' (H ++ [feature_list_json]) = inr (File c1 m1) ∧
  stat t' (H ++ [progress_txt]) = inr (File c2 m2) ∧
  stat t' (H ++ [init_sh]) = inr (File init_script_content mode_0o755).
Proof.
  intros L N1 N2 N3 t'.
  pose proof (lookup_parent_installed _ _ _ _ c1 m1 c2 m2 L N1 N2 N3) as L'.
  subst t'. split_and!; (eapply stat_file; [reflexivity|exact L'|]); unfold installed.
  - rewrite !lookup_insert_ne by (by apply snoc_ne). apply lookup_insert_eq.
  - rewrite lookup_insert_ne by (by apply snoc_ne). apply lookup_insert_eq.
  - apply lookup_insert_eq.
Qed.

End MainFacts.

(** ** The claims about a run *)

Import FS FSFacts Harness HarnessFacts Main MainFacts.



Lemma main_rejected argv w code :
  Argparse.scan argv [] false = inl code →
  main argv w = (Py.Raise (Py.SystemExit code), w).
Proof. intros Hscan. by rewrite main_eq, prepare_eq, Hscan. Qed.


Example run_fresh : fst (run Demo.argv Demo.fresh) = 0.
Proof. by vm_compute. Qed.

Example run_blocked : fst (run Demo.argv Demo.blocked) = 1.
Proof. by vm_compute. Qed.

Example run_two_arguments : run ["proj"; "feat"] Demo.fresh = (2, Demo.fresh).
Proof. by vm_compute. Qed.

Example run_help : run ["proj"; "--help"] Demo.fresh = (0, Demo.fresh).
Proof. by vm_compute. Qed.

(** the three files of a complete run *)
Lemma main_ok_files argv w w' :
  main argv w = (Py.Ok tt, w') →
  ∃ args m1 m2,
    let P := project_path_of w args in
    let H := harness_path_of w args in
    Argparse.scan argv [] false = inr args ∧
    stat (Py.fs w') (Path.joinpath H "feature_list.json") =
      inr (File (feature_list_content w (Path.name P) (Argparse.description args)) m1) ∧
    stat (Py.fs w') (Path.joinpath H "progress.txt") =
      inr (File (progress_file_content w (Path.name P) (Argparse.description args)) m2) ∧
    stat (Py.fs w') (Path.joinpath H "init.sh") =
      inr (File init_script_content mode_0o755).
Proof.
  intros (args & w1 & dir & dm & m1 & m2 & m3 & Hp & L & O1 & O2 & O3
          & -> & _)%main_ok_inv.
  exists args, m1, m2. cbv zeta.
  split; [by destruct (prepare_ok_inv _ _ _ _ _ _ Hp)|].
  apply (installed_stat _ _ _ _ _ _ _ _ L);
    eauto using overwrites_not_dir.
Qed.

(** C3.  Two complete runs, whatever their command lines and worlds,
    leave the same [init.sh]: the same bytes, with mode 0755, in which the
    three execute bits (0o111, that is 73) are set.  The text is
    the constant [init_script_content], in which no argument occurs. *)
Theorem init_script_same_for_all_runs
    (argv1 argv2 : list string) (w1 w1' w2 w2' : Py.world) :
  main argv1 w1 = (Py.Ok tt, w1') →
  main argv2 w2 = (Py.Ok tt, w2') →
  ∃ args1 args2,
    Argparse.scan argv1 [] false = inr args1 ∧
    Argparse.scan argv2 [] false = inr args2 ∧
    stat (Py.fs w1') (Path.joinpath (harness_path_of w1 args1) "init.sh")
      = inr (File init_script_content mode_0o755) ∧
    stat (Py.fs w2') (Path.joinpath (harness_path_of w2 args2) "init.sh")
      = inr (File init_script_content mode_0o755) ∧
    Z.land mode_0o755 73 = 73.
Proof.
  intros (args1 & ? & ? & S1 & _ & _ & I1)%main_ok_files
         (args2 & ? & ? & S2 & _ & _ & I2)%main_ok_files.
  exists args1, args2. split_and!; done.
Qed.

Lemma init_script_same_for_all_runs_witness :
  ∃ args1 args2,
    Argparse.scan Demo.argv [] false = inr args1 ∧
    Argparse.scan ["/srv/app"; "billing"; "Invoices"] [] false = inr args2 ∧
    stat (Py.fs (snd (main Demo.argv Demo.fresh)))
         (Path.joinpath (harness_path_of Demo.fresh args1) "init.sh")
      = inr (File init_script_content mode_0o755) ∧
    stat (Py.fs (snd (main ["/srv/app"; "billing"; "Invoices"] Demo.fresh)))
         (Path.joinpath (harness_path_of Demo.fresh args2) "init.sh")
      = inr (File init_script_content mode_0o755) ∧
    Z.land mode_0o755 73 = 73.
Proof.
  apply (init_script_same_for_all_runs Demo.argv ["/srv/app"; "billing"; "Invoices"]
           Demo.fresh (snd (main Demo.argv Demo.fresh))
           Demo.fresh (snd (main ["/srv/app"; "billing"; "Invoices"] Demo.fresh)));
    apply PyFacts.with_final_world; vm_compute; reflexivity.
Defined.

Lemma lookup_parent_is_dir t H dir dm :
  lookup_parent t H = inr (dir, dm) → is_dir t H = true.
Proof.
  intros [W D]%lookup_parent_inv. unfold is_dir, stat. by rewrite W, D.
Qed.

(** C5.  Suppose [prepare] has made the directories and
    [create_feature_list] has written its file.  If the write of
    [progress.txt] then raises, [main] ends with that exception and status
    1, and the file system is the one [create_feature_list] left: the
    harness directory is there and [feature_list.json] holds what was
    written.  If instead [progress.txt] is written and
    [create_init_script] raises, the file system is the one
    [create_progress_file] left, with both earlier files in place.
    Nothing is retried, rolled back or removed. *)
Theorem later_failure_keeps_earlier_files
    (argv : list string) (w w1 w2 : Py.world)
    (args : Argparse.namespace) (P H : list string) :
  prepare argv w = (Py.Ok (args, P, H), w1) →
  create_feature_list (Path.name P) H (Argparse.description args) w1 = (Py.Ok tt, w2) →
  let c1 := feature_list_content w1 (Path.name P) (Argparse.description args) in
  let c2 := progress_file_content w1 (Path.name P) (Argparse.description args) in
  (∀ x w3,
     create_progress_file (Path.name P) H (Argparse.description args) w2 = (Py.Raise x, w3) →
     main argv w = (Py.Raise x, w3) ∧ fst (run argv w) = 1 ∧
     Py.fs w3 = Py.fs w2 ∧ is_dir (Py.fs w3) H = true ∧
     ∃ m1, stat (Py.fs w3) (Path.joinpath H "feature_list.json") = inr (File c1 m1))
  ∧
  (∀ w3 x w4,
     create_progress_file (Path.name P) H (Argparse.description args) w2 = (Py.Ok tt, w3) →
     create_init_script H w3 = (Py.Raise x, w4) →
     main argv w = (Py.Raise x, w4) ∧ fst (run argv w) = 1 ∧
     Py.fs w4 = Py.fs w3 ∧ is_dir (Py.fs w4) H = true ∧
     ∃ m1 m2,
       stat (Py.fs w4) (Path.joinpath H "feature_list.json") = inr (File c1 m1) ∧
       stat (Py.fs w4) (Path.joinpath H "progress.txt") = inr (File c2 m2)).
Proof.
  intros Hp H1 c1 c2.
  pose proof H1 as H1'. rewrite create_feature_list_eq in H1'. cbv zeta in H1'.
  destruct (write_file (Py.fs w1) _ _) as [e|t2] eqn:W1; [done|].
  injection H1' as <-.
  pose proof (write_file_kept _ _ _ _ _ not_dot_dot_feature_list W1) as K1.
  apply (write_file_inv _ _ _ _ _ not_dot_dot_feature_list) in W1
    as (dir & dm & m1 & L1 & -> & Wm1 & O1).
  pose proof (lookup_parent_kept _ _ _ _ _ K1 L1) as L2.
  split.
  - intros x w3 H2.
    assert (main argv w = (Py.Raise x, w3)) as Hm
      by (by rewrite main_eq, Hp, H1, H2).
    rewrite create_progress_file_eq in H2. cbv zeta in H2.
    cbn [Py.fs Py.cwd Py.clock Py.ticks Py.stdout] in H2.
    destruct (write_file _ _ _) as [e|t3] eqn:W2; [|done].
    injection H2 as <- <-.
    cbn [Py.fs]. split_and!; try done.
    + unfold run. by rewrite Hm.
    + by eapply lookup_parent_is_dir.
    + exists m1. eapply stat_file; [reflexivity|exact L2|apply lookup_insert_eq].
  - intros w3 x w4 H2 H3.
    assert (main argv w = (Py.Raise x, w4)) as Hm
      by (by rewrite main_eq, Hp, H1, H2, H3).
    rewrite create_progress_file_eq in H2. cbv zeta in H2.
    cbn [Py.fs Py.cwd Py.clock Py.ticks Py.stdout] in H2.
    destruct (write_file _ _ _) as [e|t3] eqn:W2; [done|].
    injection H2 as <-.
    pose proof (write_file_kept _ _ _ _ _ not_dot_dot_progress W2) as K2.
    apply (write_file_inv _ _ _ _ _ not_dot_dot_progress) in W2
      as (dir2 & dm2 & m2 & L2' & -> & Wm2 & O2).
    rewrite L2 in L2'. injection L2' as <- <-.
    pose proof (lookup_parent_kept _ _ _ _ _ K2 L2) as L3.
    rewrite create_init_script_eq in H3. cbv zeta in H3.
    cbn [Py.fs Py.cwd Py.clock Py.ticks Py.stdout] in H3.
    destruct (write_file _ _ _) as [e|t4] eqn:W3.
    + injection H3 as <- <-. cbn [Py.fs]. split_and!; try done.
      * unfold run. by rewrite Hm.
      * by eapply lookup_parent_is_dir.
      * exists m1, m2. split.
        -- eapply stat_file; [reflexivity|exact L3|].
           rewrite lookup_insert_ne by (by apply snoc_ne). apply lookup_insert_eq.
        -- eapply stat_file; [reflexivity|exact L3|apply lookup_insert_eq].
    + exfalso.
      pose proof (write_file_kept _ _ _ _ _ not_dot_dot_init W3) as K3.
      apply (write_file_inv _ _ _ _ _ not_dot_dot_init) in W3
        as (dir3 & dm3 & m3 & L3' & -> & Wm3 & O3).
      rewrite L3 in L3'. injection L3' as <- <-.
      erewrite chmod_file in H3;
        [done|reflexivity|by eapply lookup_parent_kept|apply lookup_insert_eq].
Qed.

Definition blocked_prepared : Py.world := snd (prepare Demo.argv Demo.blocked).

Definition blocked_harness : list string := ["home"; "proj"; "long_running"; "feat"].

Definition blocked_listed : Py.world :=
  snd (create_feature_list "proj" blocked_harness "A demo" blocked_prepared).

Definition blocked_stopped : Py.world :=
  snd (create_progress_file "proj" blocked_harness "A demo" blocked_listed).

Lemma later_failure_keeps_earlier_files_witness :
  main Demo.argv Demo.blocked
    = (Py.Raise (Py.OSError EISDIR (blocked_harness ++ ["progress.txt"])),
       blocked_stopped) ∧
  fst (run Demo.argv Demo.blocked) = 1 ∧
  Py.fs blocked_stopped = Py.fs blocked_listed ∧
  is_dir (Py.fs blocked_stopped) blocked_harness = true ∧
  ∃ m1, stat (Py.fs blocked_stopped) (Path.joinpath blocked_harness "feature_list.json")
        = inr (File (feature_list_content blocked_prepared "proj" "A demo") m1).
Proof.
  refine (proj1 (later_failure_keeps_earlier_files Demo.argv Demo.blocked
                   blocked_prepared blocked_listed
                   (Argparse.mkNamespace "proj" "feat" "A demo")
                   ["home"; "proj"] blocked_harness _ _)
            (Py.OSError EISDIR (blocked_harness ++ ["progress.txt"]))
            blocked_stopped _).
  - exact (PyFacts.with_final_world (prepare Demo.argv Demo.blocked) _
             ltac:(vm_compute; reflexivity)).
  - exact (PyFacts.with_final_world
             (create_feature_list "proj" blocked_harness "A demo" blocked_prepared) _
             ltac:(vm_compute; reflexivity)).
  - exact (PyFacts.with_final_world
             (create_progress_file "proj" blocked_harness "A demo" blocked_listed) _
             ltac:(vm_compute; reflexivity)).
Defined.

(** ** The claims about the generated texts *)


(** the closing section of [progress.txt] *)
Definition notes_text : string :=
  Str.unlines [
    "## Notes for Future Sessions";
    "";
    "When starting a new session:";
    "1. Read this file to understand recent progress";
    "2. Check git log for commit history";
    "3. Review feature_list.json for next task";
    "4. Run ./init.sh to start development environment";
    "5. Pick ONE feature and implement it";
    "6. Update this file before ending session";
    ""
  ].

Definition six_steps : list string :=
  ["1. Read this file to understand recent progress";
   "2. Check git log for commit history";
   "3. Review feature_list.json for next task";
   "4. Run ./init.sh to start development environment";
   "5. Pick ONE feature and implement it";
   "6. Update this file before ending session"].

Lemma progress_content_notes name desc created session :
  (∃ head, progress_content name desc created session = head +:+ notes_text) ∧
  Text.checklist (progress_content name desc created session) = Some six_steps.
Proof.
  unfold progress_content.
  match goal with |- context [Str.unlines ?L] => set (all := L) end.
  split.
  - exists (Str.unlines (List.firstn 26 all)).
    by rewrite <- (List.firstn_skipn 26 all) at 1; rewrite StrFacts.unlines_app.
  - unfold Text.checklist. rewrite StrFacts.lines_unlines.
    rewrite <- (List.firstn_skipn 26 all).
    rewrite List.map_app, List.concat_app, !List.rev_app_distr.
    reflexivity.
Qed.

(** C9, the claim as stated, at the run of [Demo.argv] in [Demo.fresh]:
    the checklist that closes the [progress.txt] of that run does not have
    five steps (it has six). *)
Lemma progress_checklist_not_five_steps :
  ¬ ∃ c m steps,
      stat (Py.fs (snd (main Demo.argv Demo.fresh)))
           ["home"; "proj"; "long_running"; "feat"; "progress.txt"] = inr (File c m) ∧
      Text.checklist c = Some steps ∧ List.length steps = 5%nat.
Proof.
  intros (c & m & steps & Hs & Hc & Hl).
  vm_compute in Hs. injection Hs as <- <-.
  vm_compute in Hc. injection Hc as <-. discriminate Hl.
Qed.

(** C9, amended.  The [progress.txt] of every complete run ends with the
    fixed section "Notes for Future Sessions", and the checklist of that
    section has six ordered steps: read the log, check the commit history,
    review the feature list, run the init script, implement one feature,
    update the log before ending. *)
Theorem progress_checklist_six_steps (argv : list string) (w w' : Py.world) :
  main argv w = (Py.Ok tt, w') →
  ∃ args c m head,
    Argparse.scan argv [] false = inr args ∧
    stat (Py.fs w') (Path.joinpath (harness_path_of w args) "progress.txt")
      = inr (File c m) ∧
    c = head +:+ notes_text ∧
    Text.checklist c = Some six_steps ∧
    List.length six_steps = 6%nat.
Proof.
  intros (args & m1 & m2 & Hscan & _ & Hpg & _)%main_ok_files.
  destruct (progress_content_notes
              (Path.name (project_path_of w args)) (Argparse.description args)
              (Datetime.strftime_minutes (Py.clock w (S (S (Py.ticks w)))))
              (Datetime.strftime_minutes (Py.clock w (S (S (S (Py.ticks w)))))))
    as [[head Hhead] Hsteps].
  eexists args, _, m2, head. split_and!; [done|exact Hpg|exact Hhead|exact Hsteps|done].
Qed.

Lemma progress_checklist_six_steps_witness :
  ∃ args c m head,
    Argparse.scan Demo.argv [] false = inr args ∧
    stat (Py.fs (snd (main Demo.argv Demo.fresh)))
         (Path.joinpath (harness_path_of Demo.fresh args) "progress.txt")
      = inr (File c m) ∧
    c = head +:+ notes_text ∧
    Text.checklist c = Some six_steps ∧
    List.length six_steps = 6%nat.
Proof.
  apply (progress_checklist_six_steps Demo.argv Demo.fresh
           (snd (main Demo.argv Demo.fresh))).
  apply PyFacts.with_final_world. vm_compute. reflexivity.
Defined.



(** ** The claims about the feature list and the timestamps *)

(** what a reader finds in the document [create_feature_list] builds *)
Lemma feature_list_fields (name desc created last_updated : string) :
  let doc := feature_list name desc created last_updated in
  ∃ features,
    Json.get "features" doc = Some (Json.JList features) ∧
    List.length features = 2%nat ∧
    (Json.get "metadata" doc ≫= Json.get "total_features")
      = Some (Json.JNum (Z.of_nat (List.length features))) ∧
    (Json.get "metadata" doc ≫= Json.get "completed_features")
      = Some (Json.JNum 0) ∧
    Forall (λ f, Json.get "passes" f = Some (Json.JBool false) ∧
                 Json.get "priority" f = Some (Json.JStr "high")) features ∧
    (Json.get "project" doc ≫= Json.get "created") = Some (Json.JStr created) ∧
    (Json.get "metadata" doc ≫= Json.get "last_updated")
      = Some (Json.JStr last_updated).
Proof.
  eexists. split; [reflexivity|].
  split_and!; try reflexivity.
  repeat constructor.
Qed.

(** C1.  After every complete run, [feature_list.json] in the harness
    directory decodes to a document whose [features] is a sequence of
    length 2, whose [metadata.total_features] is that length, 2, whose
    [metadata.completed_features] is 0, and in which every feature has
    [passes] false and [priority] "high". *)
Theorem feature_list_seeded (argv : list string) (w w' : Py.world) :
  main argv w = (Py.Ok tt, w') →
  ∃ args content m doc features,
    Argparse.scan argv [] false = inr args ∧
    stat (Py.fs w') (Path.joinpath (harness_path_of w args) "feature_list.json")
      = inr (File content m) ∧
    Json.loads content = Some doc ∧
    Json.get "features" doc = Some (Json.JList features) ∧
    List.length features = 2%nat ∧
    (Json.get "metadata" doc ≫= Json.get "total_features")
      = Some (Json.JNum (Z.of_nat (List.length features))) ∧
    (Json.get "metadata" doc ≫= Json.get "total_features") = Some (Json.JNum 2) ∧
    (Json.get "metadata" doc ≫= Json.get "completed_features")
      = Some (Json.JNum 0) ∧
    Forall (λ f, Json.get "passes" f = Some (Json.JBool false) ∧
                 Json.get "priority" f = Some (Json.JStr "high")) features.
Proof.
  intros (args & m1 & m2 & Hscan & Hfl & _ & _)%main_ok_files.
  destruct (feature_list_fields
              (Path.name (project_path_of w args)) (Argparse.description args)
              (Datetime.isoformat (Py.clock w (Py.ticks w)))
              (Datetime.isoformat (Py.clock w (S (Py.ticks w)))))
    as (features & Hf & Hlen & Htot & Hdone & Hall & _ & _).
  eexists args, _, m1, _, features.
  split_and!; [exact Hscan|exact Hfl|apply JsonFacts.loads_dumps
               |exact Hf|exact Hlen|exact Htot| |exact Hdone|exact Hall].
  by rewrite Htot, Hlen.
Qed.

Lemma feature_list_seeded_witness :
  ∃ args content m doc features,
    Argparse.scan Demo.argv [] false = inr args ∧
    stat (Py.fs (snd (main Demo.argv Demo.fresh)))
         (Path.joinpath (harness_path_of Demo.fresh args) "feature_list.json")
      = inr (File content m) ∧
    Json.loads content = Some doc ∧
    Json.get "features" doc = Some (Json.JList features) ∧
    List.length features = 2%nat ∧
    (Json.get "metadata" doc ≫= Json.get "total_features")
      = Some (Json.JNum (Z.of_nat (List.length features))) ∧
    (Json.get "metadata" doc ≫= Json.get "total_features") = Some (Json.JNum 2) ∧
    (Json.get "metadata" doc ≫= Json.get "completed_features")
      = Some (Json.JNum 0) ∧
    Forall (λ f, Json.get "passes" f = Some (Json.JBool false) ∧
                 Json.get "priority" f = Some (Json.JStr "high")) features.
Proof.
  apply (feature_list_seeded Demo.argv Demo.fresh (snd (main Demo.argv Demo.fresh))).
  apply PyFacts.with_final_world. vm_compute. reflexivity.
Defined.

(** C8, the claim as stated, at the run of [Demo.argv] in [Demo.fresh]:
    in the [feature_list.json] of that run [project.created] and
    [metadata.last_updated] are not one and the same timestamp. *)
Lemma timestamps_not_shared :
  ¬ ∃ content m doc t,
      stat (Py.fs (snd (main Demo.argv Demo.fresh)))
           ["home"; "proj"; "long_running"; "feat"; "feature_list.json"]
        = inr (File content m) ∧
      Json.loads content = Some doc ∧
      (Json.get "project" doc ≫= Json.get "created") = Some (Json.JStr t) ∧
      (Json.get "metadata" doc ≫= Json.get "last_updated") = Some (Json.JStr t).
Proof.
  intros (content & m & doc & t & Hs & Hl & Hc & Hu).
  vm_compute in Hs. injection Hs as <- <-.
  vm_compute in Hl. injection Hl as <-.
  vm_compute in Hc, Hu. congruence.
Qed.

(** C8, amended.  In a complete run every timestamp is a reading of the
    clock of its own, taken where the field is rendered: the first
    reading is [project.created] and the second [metadata.last_updated],
    both in ISO form, and the third and the fourth are the "Created" and
    the "Session" time of [progress.txt], to the minute.  The run reads
    the clock these four times and no more. *)
Theorem timestamps_are_successive_readings (argv : list string) (w w' : Py.world) :
  main argv w = (Py.Ok tt, w') →
  ∃ args c1 m1 doc c2 m2,
    let name := Path.name (project_path_of w args) in
    let reading k := Py.clock w (k + Py.ticks w)%nat in
    Argparse.scan argv [] false = inr args ∧
    stat (Py.fs w') (Path.joinpath (harness_path_of w args) "feature_list.json")
      = inr (File c1 m1) ∧
    Json.loads c1 = Some doc ∧
    (Json.get "project" doc ≫= Json.get "created")
      = Some (Json.JStr (Datetime.isoformat (reading 0%nat))) ∧
    (Json.get "metadata" doc ≫= Json.get "last_updated")
      = Some (Json.JStr (Datetime.isoformat (reading 1%nat))) ∧
    stat (Py.fs w') (Path.joinpath (harness_path_of w args) "progress.txt")
      = inr (File c2 m2) ∧
    c2 = progress_content name (Argparse.description args)
           (Datetime.strftime_minutes (reading 2%nat))
           (Datetime.strftime_minutes (reading 3%nat)) ∧
    Py.ticks w' = (4 + Py.ticks w)%nat.
Proof.
  intros Hm.
  destruct (main_ok_files _ _ _ Hm) as (args & m1 & m2 & Hscan & Hfl & Hpg & _).
  destruct (main_ok_inv _ _ _ Hm) as (args' & _ & _ & _ & _ & _ & _ & _ & _ & _ & _ & _ & _ & _ & _ & Ht).
  destruct (feature_list_fields
              (Path.name (project_path_of w args)) (Argparse.description args)
              (Datetime.isoformat (Py.clock w (Py.ticks w)))
              (Datetime.isoformat (Py.clock w (S (Py.ticks w)))))
    as (features & _ & _ & _ & _ & _ & Hc & Hu).
  eexists args, _, m1, _, _, m2. cbv zeta.
  split_and!; [exact Hscan|exact Hfl|apply JsonFacts.loads_dumps
               |exact Hc|exact Hu|exact Hpg|reflexivity|exact Ht].
Qed.

Lemma timestamps_are_successive_readings_witness :
  ∃ args c1 m1 doc c2 m2,
    let name := Path.name (project_path_of Demo.fresh args) in
    let reading k := Py.clock Demo.fresh (k + Py.ticks Demo.fresh)%nat in
    Argparse.scan Demo.argv [] false = inr args ∧
    stat (Py.fs (snd (main Demo.argv Demo.fresh)))
         (Path.joinpath (harness_path_of Demo.fresh args) "feature_list.json")
      = inr (File c1 m1) ∧
    Json.loads c1 = Some doc ∧
    (Json.get "project" doc ≫= Json.get "created")
      = Some (Json.JStr (Datetime.isoformat (reading 0%nat))) ∧
    (Json.get "metadata" doc ≫= Json.get "last_updated")
      = Some (Json.JStr (Datetime.isoformat (reading 1%nat))) ∧
    stat (Py.fs (snd (main Demo.argv Demo.fresh)))
         (Path.joinpath (harness_path_of Demo.fresh args) "progress.txt")
      = inr (File c2 m2) ∧
    c2 = progress_content name (Argparse.description args)
           (Datetime.strftime_minutes (reading 2%nat))
           (Datetime.strftime_minutes (reading 3%nat)) ∧
    Py.ticks (snd (main Demo.argv Demo.fresh)) = (4 + Py.ticks Demo.fresh)%nat.
Proof.
  apply (timestamps_are_successive_readings Demo.argv Demo.fresh
           (snd (main Demo.argv Demo.fresh))).
  apply PyFacts.with_final_world. vm_compute. reflexivity.
Defined.

(** ** The claim about a second run *)




Lemma installed_lookups t dir c1 m1 c2 m2 :
  let t' := installed t dir c1 m1 c2 m2 in
  t' !! (dir ++ [feature_list_json]) = Some (File c1 m1) ∧
  t' !! (dir ++ [progress_txt]) = Some (File c2 m2) ∧
  t' !! (dir ++ [init_sh]) = Some (File init_script_content mode_0o755).
Proof.
  unfold installed. split_and!.
  - rewrite !lookup_insert_ne by (by apply snoc_ne). apply lookup_insert_eq.
  - rewrite lookup_insert_ne by (by apply snoc_ne). apply lookup_insert_eq.
  - apply lookup_insert_eq.
Qed.



Example rerun_demo :
  fst (run Demo.argv (snd (main Demo.argv Demo.fresh))) = 0.
Proof. by vm_compute. Qed.

(** ** The claim about the feature name *)








Example empty_feature_name :
  let t := Py.fs (snd (main ["proj"; ""; "A demo"] Demo.fresh)) in
  fst (run ["proj"; ""; "A demo"] Demo.fresh) = 0 ∧
  is_Some (t !! ["home"; "proj"; "long_running"; "init.sh"]).
Proof. split; [by vm_compute|]. vm_compute. eauto. Qed.

Example feature_name_with_separators :
  let t := Py.fs (snd (main ["proj"; "../../shared/x"; "A demo"] Demo.fresh)) in
  fst (run ["proj"; "../../shared/x"; "A demo"] Demo.fresh) = 0 ∧
  is_Some (t !! ["home"; "shared"; "x"; "init.sh"]) ∧
  t !! ["home"; "proj"; "long_running"; "shared"] = None.
Proof. split_and!; [by vm_compute| |by vm_compute]. vm_compute. eauto. Qed.

Example absolute_feature_name :
  let t := Py.fs (snd (main ["proj"; "/srv/x"; "A demo"] Demo.fresh)) in
  fst (run ["proj"; "/srv/x"; "A demo"] Demo.fresh) = 0 ∧
  is_Some (t !! ["srv"; "x"; "init.sh"]) ∧
  t !! ["home"; "proj"; "long_running"] = None.
Proof. split_and!; [by vm_compute| |by vm_compute]. vm_compute. eauto. Qed.

(** ** The claim about a project path that does not exist *)

Lemma harness_dir_of_relative P name :
  Path.is_absolute name = false →
  harness_dir_of P name = P ++ "long_running" :: Path.parts name.
Proof.
  intros Hrel. unfold harness_dir_of.
  change (Path.joinpath P "long_running") with (P ++ ["long_running"]).
  unfold Path.joinpath. rewrite Hrel. by rewrite <- app_assoc.
Qed.





Example missing_project_path_run :
  exists_ (Py.fs Demo.fresh) ["home"; "projects"; "new"; "app"] = false ∧
  fst (run ["projects/new/app"; "feat"; "A demo"] Demo.fresh) = 0 ∧
  List.hd "" (Py.stdout (snd (main ["projects/new/app"; "feat"; "A demo"] Demo.fresh)))
    = "📁 Created project directory: /home/projects/new/app".
Proof. by vm_compute. Qed.

(** * Further properties of the script *)

(** a complete run with everything that is known of it *)
Lemma main_ok_full argv w w' :
  main argv w = (Py.Ok tt, w') →
  ∃ args wp dir dm m1 m2 m3,
    let P := project_path_of w args in
    let H := harness_path_of w args in
    let name := Path.name P in
    let desc := Argparse.description args in
    Argparse.scan argv [] false = inr args ∧
    prepare argv w = (Py.Ok (args, P, H), wp) ∧
    only_adds_dirs (Py.fs w) (Py.fs wp) ∧
    lookup_parent (Py.fs wp) H = inr (dir, dm) ∧
    overwrites (Py.fs wp) (dir ++ [feature_list_json]) dm m1 ∧
    overwrites (Py.fs wp) (dir ++ [progress_txt]) dm m2 ∧
    overwrites (Py.fs wp) (dir ++ [init_sh]) dm m3 ∧
    Py.fs w' = installed (Py.fs wp) dir (feature_list_content w name desc) m1
                                       (progress_file_content w name desc) m2 ∧
    Py.stdout w' =
      Py.stdout w
      ++ (if exists_ (Py.fs w) P then [] else [project_created_line P])
      ++ heading P desc
      ++ [created_line (H ++ [feature_list_json]);
          created_line (H ++ [progress_txt]);
          created_line (H ++ [init_sh])]
      ++ summary_lines args P.
Proof.
  intros Hm.
  destruct (main_ok_inv _ _ _ Hm)
    as (args & wp & dir & dm & m1 & m2 & m3 & Hp & L & O1 & O2 & O3 & Efs & _).
  cbv zeta in Hp, Efs.
  destruct (main_ok_intro argv w args wp dir dm m1 m2 m3 Hp L O1 O2 O3)
    as (w'' & Hm' & _ & Eout).
  rewrite Hm in Hm'. injection Hm' as <-.
  destruct (prepare_ok_inv _ _ _ _ _ _ Hp)
    as (Hscan & _ & _ & _ & _ & _ & t1 & Hmk & Hproj).
  exists args, wp, dir, dm, m1, m2, m3. cbv zeta.
  split_and!; try done.
  - destruct Hproj as [(_ & -> & _)|(_ & Hmp & _)].
    + by eapply mkdir_parents_only_adds.
    + eapply only_adds_dirs_trans; by eapply mkdir_parents_only_adds.
  - rewrite Eout.
    destruct Hproj as [(-> & _ & ->)|(-> & _ & ->)]; by rewrite <- !app_assoc.
Qed.





(** the feature list of the project in use keeps mode 0600, and the
    progress log, which is new, gets mode 0644 *)
Example used_file_modes :
  let t := Py.fs (snd (main Demo.argv Demo.used)) in
  let d := ["home"; "proj"; "long_running"; "feat"] in
  (∃ c, t !! (d ++ ["feature_list.json"]) = Some (File c (6 * 64))) ∧
  (∃ c, t !! (d ++ ["progress.txt"]) = Some (File c mode_0o644)) ∧
  (∃ c, t !! (d ++ ["init.sh"]) = Some (File c mode_0o755)).
Proof. cbv zeta. split_and!; eexists; vm_compute; reflexivity. Qed.

(** X1.  What a complete run leaves alone.  Apart from the three files of
    the harness directory, every path of the file system holds after the
    run what it held before, or held nothing and is now a directory of
    mode 0755 (one that [mkdir] made on the way to the project or the
    harness directory).  No other file is written, changed or removed,
    and no directory loses its place or its mode. *)
Theorem run_changes_only_harness (argv : list string) (w w' : Py.world) :
  main argv w = (Py.Ok tt, w') →
  ∃ args dir,
    Argparse.scan argv [] false = inr args ∧
    walk (Py.fs w') [] (harness_path_of w args) = inr dir ∧
    ∀ p, p ≠ dir ++ ["feature_list.json"] → p ≠ dir ++ ["progress.txt"] →
         p ≠ dir ++ ["init.sh"] →
         Py.fs w' !! p = Py.fs w !! p
         ∨ (Py.fs w !! p = None ∧ Py.fs w' !! p = Some (Dir mode_0o755)).
Proof.
  intros (args & wp & dir & dm & m1 & m2 & m3 & Hscan & _ & Hadd & L & O1 & O2 & O3
          & Efs & _)%main_ok_full.
  cbv zeta in Efs.
  exists args, dir. split; [done|]. split.
  - rewrite Efs.
    eapply lookup_parent_inv, lookup_parent_installed;
      eauto using overwrites_not_dir.
  - intros p N1 N2 N3. rewrite Efs. unfold installed.
    rewrite !lookup_insert_ne by done. apply Hadd.
Qed.

Lemma run_changes_only_harness_witness :
  ∃ args dir,
    Argparse.scan Demo.argv [] false = inr args ∧
    walk (Py.fs (snd (main Demo.argv Demo.used))) []
         (harness_path_of Demo.used args) = inr dir ∧
    ∀ p, p ≠ dir ++ ["feature_list.json"] → p ≠ dir ++ ["progress.txt"] →
         p ≠ dir ++ ["init.sh"] →
         Py.fs (snd (main Demo.argv Demo.used)) !! p
           = Py.fs Demo.used !! p
         ∨ (Py.fs Demo.used !! p = None ∧
            Py.fs (snd (main Demo.argv Demo.used)) !! p
              = Some (Dir mode_0o755)).
Proof.
  apply (run_changes_only_harness Demo.argv Demo.used
           (snd (main Demo.argv Demo.used))).
  apply PyFacts.with_final_world. vm_compute. reflexivity.
Defined.







(** the project is then named after the working directory *)
Example project_named_after_working_directory :
  Path.name (Path.resolve (Py.cwd Demo.fresh) ".") = "home".
Proof. reflexivity. Qed.

Lemma up_take (k : nat) : ∀ dir : list string,
  Text.up k dir = take (length dir - k) dir.
Proof.
  induction k as [|k IH]; intros dir; simpl.
  - by rewrite Nat.sub_0_r, firstn_all.
  - rewrite IH, List.removelast_firstn_len, length_take, take_take.
    f_equal. lia.
Qed.

(** X5.  Where [init.sh] looks for the project.  The script takes
    [SCRIPT_DIR] to be its own directory and [PROJECT_ROOT] to be the
    directory two levels above it, while [main] puts the script as many
    levels below [long_running] as the feature name has parts.  So for a
    feature name that is a plain relative path the two agree exactly when
    the name is a single part: then [PROJECT_ROOT] is the project path.
    With two parts or more [PROJECT_ROOT] is a directory inside
    [long_running], and with an empty feature name it is the parent of the
    project path. *)
Theorem init_script_project_root
    (argv : list string) (w w' : Py.world) (args : Argparse.namespace) :
  plain (Py.cwd w) →
  main argv w = (Py.Ok tt, w') →
  Argparse.scan argv [] false = inr args →
  Path.is_absolute (Argparse.feature_name args) = false →
  plain (Path.parts (Argparse.feature_name args)) →
  let P := project_path_of w args in
  let parts := Path.parts (Argparse.feature_name args) in
  let dir := P ++ "long_running" :: parts in
  Py.fs w' !! (dir ++ ["init.sh"]) = Some (File init_script_content mode_0o755) ∧
  Text.script_dir_line ∈ Str.lines init_script_content ∧
  Text.project_root_levels init_script_content = Some 2%nat ∧
  (length parts = 1%nat → Text.up 2 dir = P) ∧
  ((2 ≤ length parts)%nat →
   Text.up 2 dir = P ++ "long_running" :: take (length parts - 2) parts ∧
   Text.up 2 dir ≠ P) ∧
  (parts = [] → Text.up 2 dir = List.removelast P).
Proof.
  intros Hcwd Hm Hscan Hrel Hplain P parts dir.
  destruct (main_ok_inv _ _ _ Hm)
    as (args' & wp & d & dm & m1 & m2 & m3 & Hp & L & _ & _ & _ & Efs & _).
  cbv zeta in Hp, Efs.
  destruct (prepare_ok_inv _ _ _ _ _ _ Hp) as (Hscan' & _).
  rewrite Hscan in Hscan'. injection Hscan' as <-.
  apply lookup_parent_inv in L as [W _].
  unfold harness_path_of in W. fold P in W.
  rewrite (harness_dir_of_relative _ _ Hrel) in W. fold parts in W.
  apply walk_plain in W.
  2:{ apply Forall_app. split; [by apply resolve_plain|].
      apply Forall_cons. split; [done|exact Hplain]. }
  simpl in W. subst d. fold dir in Efs.
  split_and!.
  - rewrite Efs. apply installed_lookups.
  - vm_compute. set_solver.
  - by vm_compute.
  - intros Hlen. rewrite up_take. unfold dir.
    rewrite length_app. simpl. rewrite Hlen.
    replace (length P + 2 - 2)%nat with (length P) by lia.
    by rewrite take_app_length.
  - intros Hlen. rewrite up_take. unfold dir.
    assert (take (length (P ++ "long_running" :: parts) - 2)
                 (P ++ "long_running" :: parts)
            = P ++ "long_running" :: take (length parts - 2) parts) as ->.
    { rewrite length_app. simpl.
      replace (length P + S (length parts) - 2)%nat
        with (length P + S (length parts - 2))%nat by lia.
      by rewrite take_app_add. }
    split; [done|].
    intros E. apply (f_equal length) in E. rewrite length_app in E.
    simpl in E. lia.
  - intros E. rewrite up_take, List.removelast_firstn_len. unfold dir.
    rewrite E, length_app. simpl.
    replace (length P + 1 - 2)%nat with (Nat.pred (length P)) by lia.
    rewrite take_app_le by lia. done.
Qed.

(** a feature name of two parts *)
Definition nested_argv : list string := ["proj"; "team/feat"; "A demo"].

Lemma init_script_project_root_witness :
  let w := Demo.fresh in
  let w' := snd (main nested_argv Demo.fresh) in
  let args := Argparse.mkNamespace "proj" "team/feat" "A demo" in
  let P := project_path_of w args in
  let parts := Path.parts (Argparse.feature_name args) in
  let dir := P ++ "long_running" :: parts in
  Py.fs w' !! (dir ++ ["init.sh"]) = Some (File init_script_content mode_0o755) ∧
  Text.script_dir_line ∈ Str.lines init_script_content ∧
  Text.project_root_levels init_script_content = Some 2%nat ∧
  (length parts = 1%nat → Text.up 2 dir = P) ∧
  ((2 ≤ length parts)%nat →
   Text.up 2 dir = P ++ "long_running" :: take (length parts - 2) parts ∧
   Text.up 2 dir ≠ P) ∧
  (parts = [] → Text.up 2 dir = List.removelast P).
Proof.
  apply (init_script_project_root nested_argv Demo.fresh
           (snd (main nested_argv Demo.fresh))
           (Argparse.mkNamespace "proj" "team/feat" "A demo")).
  - by repeat constructor.
  - apply PyFacts.with_final_world. vm_compute. reflexivity.
  - reflexivity.
  - reflexivity.
  - by repeat constructor.
Defined.

(** with that name the script of the demo lies in
    [/home/proj/long_running/team/feat] and takes
    [/home/proj/long_running] for the project *)
Example nested_feature_project_root :
  Text.up 2 ["home"; "proj"; "long_running"; "team"; "feat"]
    = ["home"; "proj"; "long_running"].
Proof. reflexivity. Qed.

Lemma classify_plain_word (a : string) :
  Str.startswith "-" a = false →
  Argparse.classify a = Argparse.Positional ∧ String.eqb a "--" = false.
Proof.
  destruct a as [|c a]; [done|].
  cbn [Str.startswith]. rewrite andb_true_r. intros E.
  assert (Ascii.eqb c "-" = false) as E'.
  { apply Ascii.eqb_neq. apply Ascii.eqb_neq in E. congruence. }
  split.
  - unfold Argparse.classify, Argparse.long_help.
    cbn [String.eqb Str.startswith Argparse.looks_negative].
    rewrite E, E'. cbn [andb orb negb]. by rewrite andb_false_r.
  - cbn [String.eqb]. by rewrite E'.
Qed.

Lemma scan_plain_words (argv : list string) : ∀ positionals unknown,
  Forall (λ a, Str.startswith "-" a = false) argv →
  Argparse.scan argv positionals unknown
  = Argparse.finish (positionals ++ argv) unknown.
Proof.
  induction argv as [|a argv IH]; intros positionals unknown Hall; simpl.
  - by rewrite app_nil_r.
  - apply Forall_cons in Hall as [Ha Hall].
    destruct (classify_plain_word a Ha) as [-> ->].
    rewrite IH by done. by rewrite <- app_assoc.
Qed.

(** X7.  The command line is read by position and by count alone.  When no
    argument starts with a dash, exactly three arguments are taken, in
    order, as project path, feature name and description, each as it
    stands, the empty string included; with any other number of
    arguments the run ends with status 2 in the world it started in. *)
Theorem arguments_by_position (argv : list string) (w : Py.world) :
  Forall (λ a, Str.startswith "-" a = false) argv →
  match argv with
  | [p; f; d] =>
      Argparse.parse_args argv w = (Py.Ok (Argparse.mkNamespace p f d), w)
  | _ => run argv w = (2, w)
  end.
Proof.
  intros Hall.
  pose proof (scan_plain_words argv [] false Hall) as Hscan. simpl in Hscan.
  assert (∀ code, Argparse.scan argv [] false = inl code → run argv w = (code, w))
    as Hrej.
  { intros code E. unfold run. by rewrite (main_rejected _ _ _ E). }
  unfold Argparse.parse_args.
  destruct argv as [|p [|f [|d [|x rest]]]]; try (by apply Hrej).
  by rewrite Hscan.
Qed.

Lemma arguments_by_position_witness :
  Argparse.parse_args ["my project"; ""; ""] Demo.fresh
  = (Py.Ok (Argparse.mkNamespace "my project" "" ""), Demo.fresh).
Proof.
  apply (arguments_by_position ["my project"; ""; ""] Demo.fresh).
  by repeat constructor.
Defined.

Example four_arguments :
  run ["proj"; "feat"; "A"; "demo"] Demo.fresh = (2, Demo.fresh).
Proof. by vm_compute. Qed.




Lemma walk_through_file t P q c0 m rest :
  walk t [] P = inr q → t !! q = Some (File c0 m) → rest ≠ [] →
  walk t [] (P ++ rest) = inl ENOTDIR.
Proof.
  intros W E Hne. rewrite walk_app, W.
  destruct rest as [|c rest]; [done|]. simpl. by rewrite E.
Qed.

Lemma mkdir_parents_below_file t P c0 m rest ok :
  stat t P = inr (File c0 m) → rest ≠ [] →
  mkdir_parents t (P ++ rest) ok = inl (ENOTDIR, P ++ rest).
Proof.
  intros Hst Hne. unfold stat in Hst.
  destruct (walk t [] P) as [e|q] eqn:W; [done|].
  destruct (t !! q) as [nd|] eqn:E; [|done]. injection Hst as ->.
  destruct (exists_last Hne) as (r & n & ->).
  assert (os_mkdir t (P ++ r ++ [n]) = inl ENOTDIR) as Hmk.
  { unfold os_mkdir. rewrite app_assoc, split_last_snoc.
    unfold lookup_parent. destruct r as [|c r].
    - by rewrite app_nil_r, W, E.
    - by rewrite (walk_through_file _ _ _ _ _ (c :: r) W E). }
  assert (is_dir t (P ++ r ++ [n]) = false) as Hnd.
  { unfold is_dir, stat.
    rewrite (walk_through_file _ _ _ _ _ (r ++ [n]) W E); [done|].
    by destruct r. }
  unfold mkdir_parents. rewrite mkdir_parents_rev_eq, rev_involutive, Hmk, Hnd.
  by rewrite andb_false_r.
Qed.

(** X8.  A file where the project directory should be.  If the resolved
    project path is a regular file and the feature name is relative, the
    path counts as existing, so nothing is made of it; the harness
    directory, which would lie below the file, cannot be made.
    [mkdir] raises [NotADirectoryError] for the harness path, and the
    run ends with status 1 in the very world it started in: nothing is
    written, nothing printed, the clock is not read. *)
Theorem project_path_is_a_file
    (argv : list string) (w : Py.world) (args : Argparse.namespace)
    (c0 : string) (m : Z) :
  Argparse.scan argv [] false = inr args →
  stat (Py.fs w) (project_path_of w args) = inr (File c0 m) →
  Path.is_absolute (Argparse.feature_name args) = false →
  main argv w = (Py.Raise (Py.OSError ENOTDIR (harness_path_of w args)), w) ∧
  run argv w = (1, w).
Proof.
  intros Hscan Hst Hrel.
  assert (main argv w
          = (Py.Raise (Py.OSError ENOTDIR (harness_path_of w args)), w)) as Hm.
  { rewrite main_eq, prepare_eq, Hscan. cbv zeta.
    unfold harness_path_of, project_path_of in *.
    unfold exists_. rewrite Hst.
    rewrite (harness_dir_of_relative _ _ Hrel).
    by rewrite (mkdir_parents_below_file _ _ _ _ _ _ Hst). }
  split; [exact Hm|]. unfold run. by rewrite Hm.
Qed.

Lemma project_path_is_a_file_witness :
  main Demo.argv Demo.file_in_the_way
    = (Py.Raise (Py.OSError ENOTDIR
         (harness_path_of Demo.file_in_the_way
            (Argparse.mkNamespace "proj" "feat" "A demo"))),
       Demo.file_in_the_way) ∧
  run Demo.argv Demo.file_in_the_way = (1, Demo.file_in_the_way).
Proof.
  apply (project_path_is_a_file Demo.argv Demo.file_in_the_way
           (Argparse.mkNamespace "proj" "feat" "A demo")
           "not a directory" mode_0o644).
  - reflexivity.
  - by vm_compute.
  - reflexivity.
Defined.
